(** * Node-App: the Express/Mongoose back end of the education-guidance platform

    A shallow embedding of the request handlers of the server entry point
    (registration and login, student profile submission, the college-admin
    approval workflow, the placement-data workflow and the transaction
    ledger), together with the properties of the specification that concern
    them.

    Conventions of the embedding.

    - A Mongoose collection is the list of its documents in insertion
      order ([findOne] returns the first match in that order).
    - A handler is a function from the collections it touches and the
      request to the new collections and the response.  What the handler
      obtains from its environment (a generated [ObjectId], the clock, the
      bcrypt salt) is an explicit argument.
    - A store operation changes the collections and either returns or
      throws; a handler is a computation in the state-and-exception monad
      [Op], and its [try]/[catch] is [try_catch].  The state a [catch]
      block sees is the state at the time of the throw.
    - Strings are byte strings; [toLowerCase] acts on the ASCII letters.
    - JavaScript numbers that hold integers (years, amounts, dates in
      milliseconds) are [Z].
    - A field of a request body or of a query is a string or is absent.
      An id in a request is an [ObjectId]: strings that Mongoose cannot
      cast to one are outside the model.

    What is taken from Mongoose and MongoDB.

    - [save] and [create] validate the document against its schema: a
      required string is present and not empty, a required number is
      present, an enum holds one of its values; an absent array path is the
      empty array.  A document that fails is rejected with an exception.
    - [_id] is unique in a collection, and so is a path declared
      [unique]; an insert that would repeat one is rejected.
    - [NaN] does not cast to a Number path, in a document or in a filter.
    - An upsert that inserts builds the document from the equalities of
      the filter, the update and the defaults of the schema. *)

From Stdlib Require Import ZArith Lia Bool Ascii String List.
From stdpp Require Import base option list strings gmap.

Local Open Scope string_scope.
Local Open Scope Z_scope.

(* ===================================================================== *)
(** ** JavaScript values the handlers rely on *)

Module JS.

(** [String.prototype.toLowerCase] on one ASCII character. *)
Definition lower_ascii (c : ascii) : ascii :=
  let n := nat_of_ascii c in
  if ((65 <=? n)%nat && (n <=? 90)%nat)%bool
  then ascii_of_nat (n + 32)
  else c.

Definition is_upper (c : ascii) : bool :=
  let n := nat_of_ascii c in ((65 <=? n)%nat && (n <=? 90)%nat)%bool.

Fixpoint toLowerCase (s : string) : string :=
  match s with
  | EmptyString => EmptyString
  | String c s' => String (lower_ascii c) (toLowerCase s')
  end.

Fixpoint has_upper (s : string) : bool :=
  match s with
  | EmptyString => false
  | String c s' => is_upper c || has_upper s'
  end.

(** A request field is [undefined] or a string.  [falsy f] is the
    JavaScript test [!f]: [undefined] and the empty string. *)
Definition falsy (f : option string) : bool :=
  match f with
  | None => true
  | Some s => if decide (s = "") then true else false
  end.

(** The string carried by a field that passed the test [!f]. *)
Definition field_value (f : option string) : string := default "" f.

(** *** [parseInt(string)] with no radix *)

(** White space that [parseInt] skips (the ASCII part of StrWhiteSpaceChar). *)
Definition is_space (c : ascii) : bool :=
  let n := nat_of_ascii c in
  ((9 <=? n)%nat && (n <=? 13)%nat) || (n =? 32)%nat.

Fixpoint trim_start (s : string) : string :=
  match s with
  | String c s' => if is_space c then trim_start s' else s
  | EmptyString => s
  end.

(** The value of a digit in radix up to 36. *)
Definition digit_value (c : ascii) : option Z :=
  let n := nat_of_ascii c in
  if ((48 <=? n)%nat && (n <=? 57)%nat)%bool then Some (Z.of_nat n - 48)
  else if ((97 <=? n)%nat && (n <=? 122)%nat)%bool then Some (Z.of_nat n - 87)
  else if ((65 <=? n)%nat && (n <=? 90)%nat)%bool then Some (Z.of_nat n - 55)
  else None.

(** The value of the longest prefix of digits of the radix; [acc] is
    [None] until a digit has been read. *)
Fixpoint digits (radix : Z) (s : string) (acc : option Z) : option Z :=
  match s with
  | EmptyString => acc
  | String c s' =>
      match digit_value c with
      | Some d =>
          if d <? radix then digits radix s' (Some (default 0 acc * radix + d))
          else acc
      | None => acc
      end
  end.

(** [parseInt(s)]; [None] is [NaN]. *)
Definition parseInt (s : string) : option Z :=
  let s1 := trim_start s in
  let '(sign, s2) :=
    match s1 with
    | String "-" r => (-1, r)
    | String "+" r => (1, r)
    | _ => (1, s1)
    end in
  let '(radix, s3) :=
    match s2 with
    | String "0" (String "x" r) => (16, r)
    | String "0" (String "X" r) => (16, r)
    | _ => (10, s2)
    end in
  z ← digits radix s3 None; Some (sign * z).

(** *** [JSON.parse] *)

#[local] Set Warnings "-register-all".
Inductive Json : Type :=
| JNull
| JBool (b : bool)
| JNumber (lexeme : string)
| JString (s : string)
| JArray (elements : list Json)
| JObject (members : list (string * Json)).

Definition is_json_space (c : ascii) : bool :=
  let n := nat_of_ascii c in
  (n =? 32)%nat || (n =? 9)%nat || (n =? 10)%nat || (n =? 13)%nat.

Fixpoint skip_ws (s : string) : string :=
  match s with
  | String c s' => if is_json_space c then skip_ws s' else s
  | EmptyString => s
  end.

(** The character that opens and closes a string literal (code 34). *)
Abbreviation dquote := (Ascii false true false false false true false false).

Definition is_digit (c : ascii) : bool :=
  let n := nat_of_ascii c in ((48 <=? n)%nat && (n <=? 57)%nat)%bool.

Definition hex_value (c : ascii) : option nat :=
  match digit_value c with
  | Some d => if d <? 16 then Some (Z.to_nat d) else None
  | None => None
  end.

(** The digits at the head of [s], and what follows them. *)
Fixpoint span_digits (s : string) : string * string :=
  match s with
  | String c s' =>
      if is_digit c
      then let '(d, r) := span_digits s' in (String c d, r)
      else (EmptyString, s)
  | EmptyString => (EmptyString, s)
  end.

(** A code unit written as bytes (UTF-8, a surrogate as it stands). *)
Definition code_unit (n : nat) : string :=
  if (n <? 128)%nat then String (ascii_of_nat n) EmptyString
  else if (n <? 2048)%nat then
    String (ascii_of_nat (192 + n / 64))
      (String (ascii_of_nat (128 + n mod 64)) EmptyString)
  else
    String (ascii_of_nat (224 + n / 4096))
      (String (ascii_of_nat (128 + (n / 64) mod 64))
         (String (ascii_of_nat (128 + n mod 64)) EmptyString)).

Definition escape (c : ascii) : option ascii :=
  match c with
  | dquote => Some dquote
  | "\"%char => Some "\"%char
  | "/"%char => Some "/"%char
  | "b"%char => Some (ascii_of_nat 8)
  | "f"%char => Some (ascii_of_nat 12)
  | "n"%char => Some (ascii_of_nat 10)
  | "r"%char => Some (ascii_of_nat 13)
  | "t"%char => Some (ascii_of_nat 9)
  | _ => None
  end.

(** The characters of a string literal after its opening quote: the
    decoded string and what follows the closing quote. *)
Fixpoint string_body (s : string) : option (string * string) :=
  match s with
  | EmptyString => None
  | String c r =>
      if decide (c = dquote) then Some (EmptyString, r)
      else if decide (c = "\"%char) then
        match r with
        | EmptyString => None
        | String e r1 =>
            if decide (e = "u"%char) then
              match r1 with
              | String h1 (String h2 (String h3 (String h4 r2))) =>
                  a ← hex_value h1; b ← hex_value h2;
                  c ← hex_value h3; d ← hex_value h4;
                  '(t, rest) ← string_body r2;
                  Some (code_unit (((a * 16 + b) * 16 + c) * 16 + d) +:+ t, rest)
              | _ => None
              end
            else
              ch ← escape e;
              '(t, rest) ← string_body r1;
              Some (String ch t, rest)
        end
      else if (nat_of_ascii c <? 32)%nat then None
      else '(t, rest) ← string_body r; Some (String c t, rest)
  end.

(** [s] after the character [c], when it starts with it. *)
Definition eat (c : ascii) (s : string) : option string :=
  match s with
  | String c' r => if decide (c' = c) then Some r else None
  | EmptyString => None
  end.

(** A number literal at the head of [s]: its text and what follows. *)
Definition number (s : string) : option (string * string) :=
  let '(minus, s1) :=
    match eat "-" s with
    | Some r => ("-", r)
    | None => ("", s)
    end in
  '(int, s2) ←
    match eat "0" s1 with
    | Some r => Some ("0", r)
    | None => let '(d, r) := span_digits s1 in
              if decide (d = "") then None else Some (d, r)
    end;
  '(frac, s3) ←
    match eat "." s2 with
    | Some r =>
        let '(d, r') := span_digits r in
        if decide (d = "") then None else Some ("." +:+ d, r')
    | None => Some ("", s2)
    end;
  '(exp, s4) ←
    match s3 with
    | String e r =>
        if decide (e = "e"%char \/ e = "E"%char) then
          let '(sg, r1) :=
            match eat "+" r with
            | Some r1 => ("+", r1)
            | None =>
                match eat "-" r with
                | Some r1 => ("-", r1)
                | None => ("", r)
                end
            end in
          let '(d, r2) := span_digits r1 in
          if decide (d = "") then None
          else Some (String e sg +:+ d, r2)
        else Some ("", s3)
    | EmptyString => Some ("", s3)
    end;
  Some (minus +:+ int +:+ frac +:+ exp, s4).

(** [s] without the prefix [p], when it starts with it. *)
Fixpoint strip_prefix (p s : string) : option string :=
  match p, s with
  | EmptyString, _ => Some s
  | String a p', String b s' =>
      if decide (a = b) then strip_prefix p' s' else None
  | String _ _, EmptyString => None
  end.

(** The recursive descent.  The fuel bounds the depth of the calls;
    [JSON_parse_fuel] below shows that the fuel of [JSON_parse] is enough
    for every text. *)
Fixpoint value (fuel : nat) (s : string) : option (Json * string) :=
  match fuel with
  | O => None
  | S fuel' =>
      match skip_ws s with
      | EmptyString => None
      | String c r =>
          if decide (c = "{"%char) then
            match skip_ws r with
            | EmptyString => None
            | String c' r' =>
                if decide (c' = "}"%char) then Some (JObject [], r')
                else '(ms, r'') ← members fuel' r; Some (JObject ms, r'')
            end
          else if decide (c = "["%char) then
            match skip_ws r with
            | EmptyString => None
            | String c' r' =>
                if decide (c' = "]"%char) then Some (JArray [], r')
                else '(es, r'') ← elements fuel' r; Some (JArray es, r'')
            end
          else if decide (c = dquote) then
            '(t, r') ← string_body r; Some (JString t, r')
          else if decide (c = "t"%char) then
            r' ← strip_prefix "rue" r; Some (JBool true, r')
          else if decide (c = "f"%char) then
            r' ← strip_prefix "alse" r; Some (JBool false, r')
          else if decide (c = "n"%char) then
            r' ← strip_prefix "ull" r; Some (JNull, r')
          else '(n, r') ← number (String c r); Some (JNumber n, r')
      end
  end
with elements (fuel : nat) (s : string) : option (list Json * string) :=
  match fuel with
  | O => None
  | S fuel' =>
      '(v, r) ← value fuel' s;
      match skip_ws r with
      | EmptyString => None
      | String c r' =>
          if decide (c = ","%char) then
            '(vs, r'') ← elements fuel' r'; Some (v :: vs, r'')
          else if decide (c = "]"%char) then Some ([v], r')
          else None
      end
  end
with members (fuel : nat) (s : string)
  : option (list (string * Json) * string) :=
  match fuel with
  | O => None
  | S fuel' =>
      match skip_ws s with
      | EmptyString => None
      | String c r =>
          if decide (c = dquote) then
            '(k, r1) ← string_body r;
            match skip_ws r1 with
            | EmptyString => None
            | String c1 r2 =>
                if decide (c1 = ":"%char) then
                  '(v, r3) ← value fuel' r2;
                  match skip_ws r3 with
                  | EmptyString => None
                  | String c3 r4 =>
                      if decide (c3 = ","%char) then
                        '(ms, r5) ← members fuel' r4; Some ((k, v) :: ms, r5)
                      else if decide (c3 = "}"%char) then Some ([(k, v)], r4)
                      else None
                  end
                else None
            end
          else None
      end
  end.

(** [JSON.parse(text)]; [None] is the [SyntaxError]. *)
Definition JSON_parse (text : string) : option Json :=
  match value (S (String.length text)) text with
  | Some (v, r) =>
      if decide (skip_ws r = "") then Some v else None
  | None => None
  end.

(** [JSON.parse] of a request field: [undefined] is first turned into
    the text [undefined], which is no JSON. *)
Definition JSON_parse_field (f : option string) : option Json :=
  JSON_parse (default "undefined" f).

End JS.

(* ===================================================================== *)
(** ** Exceptions, store operations and [try]/[catch] *)

Inductive Exception : Type :=
| ValidationError   (* Mongoose schema validation (required, enum) *)
| CastError         (* Mongoose could not cast a value to the schema type *)
| DuplicateKeyError (* MongoDB E11000 on a unique index *)
| SyntaxError       (* JSON.parse *)
| TypeError.        (* property access on undefined *)

Inductive Outcome (A : Type) : Type :=
| Returns (a : A)
| Throws (e : Exception).
Arguments Returns {A} a.
Arguments Throws {A} e.

(** [err.message], as far as a handler shows it. *)
Definition error_message (e : Exception) : string :=
  match e with
  | ValidationError => "validation failed"
  | CastError => "cast failed"
  | DuplicateKeyError => "E11000 duplicate key error"
  | SyntaxError => "unexpected token in JSON"
  | TypeError => "cannot read properties of undefined"
  end.

(** A computation over the collections [S] that may throw. *)
Definition Op (S A : Type) : Type := S -> S * Outcome A.

#[global] Instance Op_ret {S} : MRet (Op S) := fun A a s => (s, Returns a).

#[global] Instance Op_bind {S} : MBind (Op S) := fun A B k m s =>
  match m s with
  | (s', Returns a) => k a s'
  | (s', Throws e) => (s', Throws e)
  end.

Definition throw {S A} (e : Exception) : Op S A := fun s => (s, Throws e).

(** Reading the collections. *)
Definition get {S} : Op S S := fun s => (s, Returns s).

(** [try { m } catch (err) { handler err }], for a [catch] block that
    only builds the response. *)
Definition try_catch {S A} (m : Op S A) (handler : Exception -> A)
  : S -> S * A :=
  fun s =>
    match m s with
    | (s', Returns a) => (s', a)
    | (s', Throws e) => (s', handler e)
    end.

(* ===================================================================== *)
(** ** What is common to all collections *)

Definition ObjectId := nat.
Bind Scope nat_scope with ObjectId.
Definition Date := Z.

(** The response of a handler: [res.statusCode] and the body sent. *)
Record Response (Body : Type) : Type := mkResponse {
  statusCode : Z;
  body : Body
}.
Arguments mkResponse {Body} statusCode body.
Arguments statusCode {Body} r.
Arguments body {Body} r.

(** The external services of the authentication handlers. *)
Class Crypto : Type := {
  (** [bcrypt.hash(password, 10)]; the salt is drawn by the library. *)
  bcrypt_hash : string -> string -> string;
  (** [bcrypt.compare(password, hash)]. *)
  bcrypt_compare : string -> string -> bool;
  (** [jwt.sign({id, userType}, JWT_SECRET, {expiresIn: '1h'})] at a time. *)
  jwt_sign : ObjectId -> string -> Date -> string;
  (** A bcrypt hash is a string of sixty characters. *)
  bcrypt_hash_not_empty : forall password salt, bcrypt_hash password salt <> ""
}.

(* ===================================================================== *)
(** ** Auth service: [POST /api/register] and [POST /api/login] *)

Module Auth.

Record User : Type := mkUser {
  _id : ObjectId;
  name : string;
  email : string;
  password : string;
  userType : string;
  createdAt : Date
}.

#[global] Instance User_eq_dec : EqDecision User.
Proof. solve_decision. Defined.

Definition Users := list User.

(** [User.findOne({ email })]: the first user whose email is the given
    string, compared byte for byte. *)
Definition findOne (e : string) (users : Users) : option User :=
  List.find (fun u => bool_decide (email u = e)) users.

(** The enum of [userType] in [UserSchema]. *)
Definition userType_enum : list string := ["admin"; "student"].

(** Validation of [UserSchema]: every path is required (a required string
    is not empty) and [userType] is one of the enum. *)
Definition validate (u : User) : bool :=
  negb (bool_decide (name u = ""))
  && negb (bool_decide (email u = ""))
  && negb (bool_decide (password u = ""))
  && negb (bool_decide (userType u = ""))
  && bool_decide (userType u ∈ userType_enum).

(** [newUser.save()]: validation, then the insert under the unique
    indexes on [_id] and on [email]. *)
Definition save (u : User) : Op Users unit := fun users =>
  if negb (validate u) then (users, Throws ValidationError)
  else if bool_decide (_id u ∈ map _id users) then (users, Throws DuplicateKeyError)
  else if bool_decide (email u ∈ map email users) then (users, Throws DuplicateKeyError)
  else ((users ++ [u])%list, Returns tt).

Record RegisterBody : Type := mkRegisterBody {
  rb_name : option string;
  rb_email : option string;
  rb_password : option string;
  rb_userType : option string
}.

Record LoginBody : Type := mkLoginBody {
  lb_email : option string;
  lb_password : option string
}.

(** The JSON bodies the two handlers send. *)
Inductive Payload : Type :=
| Message (message : string)
| Session (token : string) (userType : string) (name : string).

#[global] Instance Payload_eq_dec : EqDecision Payload.
Proof. solve_decision. Defined.

(** What the handler draws from its environment. *)
Record Ambient : Type := mkAmbient {
  fresh_id : ObjectId;
  now : Date;
  salt : string
}.

Section Handlers.
Context `{Crypto}.

(** [app.post('/api/register', ...)] *)
Definition register (amb : Ambient) (req : RegisterBody)
  : Users -> Users * Response Payload :=
  if JS.falsy (rb_name req) || JS.falsy (rb_email req)
     || JS.falsy (rb_password req) || JS.falsy (rb_userType req)
  then fun users => (users, mkResponse 400 (Message "All fields are required."))
  else
    let name := JS.field_value (rb_name req) in
    let email := JS.field_value (rb_email req) in
    let password := JS.field_value (rb_password req) in
    let userType := JS.field_value (rb_userType req) in
    try_catch
      (users ← get;
       match findOne (JS.toLowerCase email) users with
       | Some existingUser =>
           mret (mkResponse 400 (Message "Email already in use."))
       | None =>
           let hashedPassword := bcrypt_hash password (salt amb) in
           let newUser := mkUser (fresh_id amb) name (JS.toLowerCase email)
                                 hashedPassword userType (now amb) in
           _ ← save newUser;
           mret (mkResponse 201 (Message "User registered successfully."))
       end)
      (fun err => mkResponse 500 (Message "Server error.")).

(** [app.post('/api/login', ...)] *)
Definition login (amb : Ambient) (req : LoginBody)
  : Users -> Users * Response Payload :=
  if JS.falsy (lb_email req) || JS.falsy (lb_password req)
  then fun users =>
         (users, mkResponse 400 (Message "Email and password are required."))
  else
    let email := JS.field_value (lb_email req) in
    let password := JS.field_value (lb_password req) in
    try_catch
      (users ← get;
       match findOne email users with
       | None => mret (mkResponse 400 (Message "Invalid credentials."))
       | Some user =>
           if negb (bcrypt_compare password (Auth.password user))
           then mret (mkResponse 400 (Message "Invalid credentials."))
           else
             let token := jwt_sign (_id user) (Auth.userType user) (now amb) in
             mret (mkResponse 200
                     (Session token (Auth.userType user) (Auth.name user)))
       end)
      (fun err => mkResponse 500 (Message "Server error.")).

(** A run of registrations, one after the other. *)
Definition register_all (reqs : list (Ambient * RegisterBody)) (users : Users)
  : Users :=
  fold_left (fun users r => (register r.1 r.2 users).1) reqs users.

(** The user stores that the service can be in: the collection starts
    empty and [register] is its only writer. *)
Inductive reachable : Users -> Prop :=
| reachable_empty : reachable []
| reachable_register (amb : Ambient) (req : RegisterBody) (users : Users) :
    reachable users -> reachable (register amb req users).1.

End Handlers.

(** The response of the spec's AuthError. *)
Definition AuthError : Response Payload :=
  mkResponse 400 (Message "Invalid credentials.").

(** The response of the spec's ConflictError. *)
Definition ConflictError : Response Payload :=
  mkResponse 400 (Message "Email already in use.").

(** Every stored email is in lower case. *)
Definition emails_lowercased (users : Users) : Prop :=
  Forall (fun u => JS.toLowerCase (email u) = email u) users.

(** What the schema and [register] guarantee of the stored users: the
    emails are in lower case and distinct, and every user passes the
    validation. *)
Definition well_formed (users : Users) : Prop :=
  emails_lowercased users
  /\ NoDup (map email users)
  /\ Forall (fun u => validate u = true) users.

End Auth.

(* ===================================================================== *)
(** ** Queries that Mongoose runs on a collection *)

Module Collection.
Section Generic.
Context {Doc : Type}.

(** [Model.findOne(filter)]: the first document that matches. *)
Definition findOne (filter : Doc -> bool) (docs : list Doc) : option Doc :=
  List.find filter docs.

(** [Model.find(filter)]: every document that matches, in order. *)
Definition find (filter : Doc -> bool) (docs : list Doc) : list Doc :=
  List.filter filter docs.

(** The update of [findOneAndUpdate]: the first match is replaced. *)
Fixpoint updateOne (filter : Doc -> bool) (f : Doc -> Doc)
  (docs : list Doc) : list Doc :=
  match docs with
  | [] => []
  | d :: docs' =>
      if filter d then f d :: docs' else d :: updateOne filter f docs'
  end.

(** The removal of [findOneAndDelete]: the first match is removed. *)
Fixpoint deleteOne (filter : Doc -> bool) (docs : list Doc) : list Doc :=
  match docs with
  | [] => []
  | d :: docs' =>
      if filter d then docs' else d :: deleteOne filter docs'
  end.
End Generic.
End Collection.

(* ===================================================================== *)
(** ** Student profile store: [POST /api/students/submitDetails] *)

Module StudentProfile.

(** A stored profile.  The four decoded fields are kept as the decoded
    JSON values. *)
Record Student : Type := mkStudent {
  _id : ObjectId;
  email : string;
  location : option string;
  pinCode : option string;
  marks10 : JS.Json;
  is12thCompleted : JS.Json;
  marks12 : JS.Json;
  parents : JS.Json;
  interests : option string;
  hobbies : option string;
  fieldOfInterest : option string;
  photo : option string;
  markSheet : option string
}.

Definition Students := list Student.

(** The text fields of the multipart body. *)
Record Body : Type := mkBody {
  b_email : option string;
  b_location : option string;
  b_pinCode : option string;
  b_marks10 : option string;
  b_is12thCompleted : option string;
  b_marks12 : option string;
  b_parents : option string;
  b_interests : option string;
  b_hobbies : option string;
  b_fieldOfInterest : option string
}.

(** [req.files]: for each of the two file fields, the name under which
    multer stored the first file of the field. *)
Record Files : Type := mkFiles {
  f_photo : option string;
  f_markSheet : option string
}.

Record Request : Type := mkRequest {
  req_body : Body;
  req_files : option Files   (* [undefined] unless the request is multipart *)
}.

Inductive Payload : Type :=
| Message (message : string).

(** [JSON.parse(field)] inside the [try] block. *)
Definition parse (f : option string) : Op Students JS.Json :=
  match JS.JSON_parse_field f with
  | Some v => mret v
  | None => throw SyntaxError
  end.

(** [newStudent.save()]: [email] is the one required path. *)
Definition save (email : option string) (mk : string -> Student)
  : Op Students unit := fun students =>
  if JS.falsy email then (students, Throws ValidationError)
  else
    let doc := mk (JS.field_value email) in
    if bool_decide (_id doc ∈ map _id students)
    then (students, Throws DuplicateKeyError)
    else ((students ++ [doc])%list, Returns tt).

(** [app.post('/api/students/submitDetails', upload.fields(...), ...)] *)
Definition submitDetails (fresh_id : ObjectId) (req : Request)
  : Students -> Students * Response Payload :=
  try_catch
    (let b := req_body req in
     files ← match req_files req with
             | Some fs => mret fs
             | None => throw TypeError
             end;
     let photo := (fun fn => "/uploads/" +:+ fn) <$> f_photo files in
     let markSheet := (fun fn => "/uploads/" +:+ fn) <$> f_markSheet files in
     m10 ← parse (b_marks10 b);
     c12 ← parse (b_is12thCompleted b);
     m12 ← parse (b_marks12 b);
     par ← parse (b_parents b);
     _ ← save (b_email b)
           (fun email =>
              mkStudent fresh_id email (b_location b) (b_pinCode b)
                        m10 c12 m12 par
                        (b_interests b) (b_hobbies b) (b_fieldOfInterest b)
                        photo markSheet);
     mret (mkResponse 201 (Message "Student details saved successfully")))
    (fun error => mkResponse 500 (Message "Failed to save student details")).

(** The status that the error taxonomy gives a ValidationError. *)
Definition ValidationError_status : Z := 400.

End StudentProfile.

(* ===================================================================== *)
(** ** College-admin workflow *)

Module CollegeAdminWorkflow.

(** A document of [collegeAdminSchema]; [approvedCollegeAdminSchema] has
    the same paths. *)
Record CollegeAdmin : Type := mkCollegeAdmin {
  _id : ObjectId;
  email : string;
  location : string;
  pincode : string;
  universityAffiliation : string;
  naacCertPhoto : string;
  website : string;
  noOfBranches : Z;
  branches : list string
}.

#[global] Instance CollegeAdmin_eq_dec : EqDecision CollegeAdmin.
Proof. solve_decision. Defined.

(** The two collections. *)
Record Store : Type := mkStore {
  pending : list CollegeAdmin;    (* model [CollegeAdmin] *)
  approved : list CollegeAdmin    (* model [ApprovedCollegeAdmin] *)
}.

(** The fields a JSON body can carry for a college admin. *)
Record Fields : Type := mkFields {
  f_email : option string;
  f_location : option string;
  f_pincode : option string;
  f_universityAffiliation : option string;
  f_naacCertPhoto : option string;
  f_website : option string;
  f_noOfBranches : option Z;
  f_branches : option (list string)
}.

(** The body of [/approveCollegeAdmin]: a record with its [_id]. *)
Record AdminBody : Type := mkAdminBody {
  a_id : ObjectId;
  a_fields : Fields
}.

Inductive Payload : Type :=
| Text (text : string)            (* [res.send(text)] *)
| Status (status message : string) (* [{status, message}] *)
| Error (error : string)          (* [{error}] *)
| Message (message : string)      (* [{message}] *)
| Admins (docs : list CollegeAdmin).

(** The document Mongoose builds from the fields, when every required
    path is there: a required string is not empty, a required number is
    a number, and an array path that is absent is the empty array. *)
Definition document (id : ObjectId) (f : Fields) : option CollegeAdmin :=
  if JS.falsy (f_email f) || JS.falsy (f_location f) || JS.falsy (f_pincode f)
     || JS.falsy (f_universityAffiliation f) || JS.falsy (f_naacCertPhoto f)
     || JS.falsy (f_website f)
  then None
  else
    n ← f_noOfBranches f;
    Some (mkCollegeAdmin id
            (JS.field_value (f_email f)) (JS.field_value (f_location f))
            (JS.field_value (f_pincode f))
            (JS.field_value (f_universityAffiliation f))
            (JS.field_value (f_naacCertPhoto f))
            (JS.field_value (f_website f))
            n (default [] (f_branches f))).

(** The insert of a document into a collection, under the unique index
    on [_id]. *)
Definition insert (id : ObjectId) (f : Fields) (docs : list CollegeAdmin)
  : Outcome (list CollegeAdmin) :=
  match document id f with
  | None => Throws ValidationError
  | Some doc =>
      if bool_decide (id ∈ map _id docs) then Throws DuplicateKeyError
      else Returns (docs ++ [doc])%list
  end.

(** [newCollegeAdmin.save()] *)
Definition CollegeAdmin_save (id : ObjectId) (f : Fields) : Op Store unit :=
  fun st =>
    match insert id f (pending st) with
    | Returns docs => (mkStore docs (approved st), Returns tt)
    | Throws e => (st, Throws e)
    end.

(** [ApprovedCollegeAdmin.create(admin)] *)
Definition ApprovedCollegeAdmin_create (admin : AdminBody) : Op Store unit :=
  fun st =>
    match insert (a_id admin) (a_fields admin) (approved st) with
    | Returns docs => (mkStore (pending st) docs, Returns tt)
    | Throws e => (st, Throws e)
    end.

Definition has_id (id : ObjectId) (d : CollegeAdmin) : bool :=
  bool_decide (_id d = id).

(** [CollegeAdmin.findByIdAndDelete(id)]: the deleted document, or
    [null] when no document has the id. *)
Definition CollegeAdmin_findByIdAndDelete (id : ObjectId)
  : Op Store (option CollegeAdmin) :=
  fun st =>
    (mkStore (Collection.deleteOne (has_id id) (pending st)) (approved st),
     Returns (Collection.findOne (has_id id) (pending st))).

(** The JavaScript test [!noOfBranches] and [!branches]. *)
Definition falsy_number (n : option Z) : bool :=
  match n with None => true | Some n => n =? 0 end.

Definition falsy_array {A} (l : option (list A)) : bool :=
  match l with None => true | Some _ => false end.

(** [app.post('/collegeAdminData', ...)] *)
Definition collegeAdminData (fresh_id : ObjectId) (f : Fields)
  : Store -> Store * Response Payload :=
  try_catch
    (if JS.falsy (f_email f) || JS.falsy (f_location f)
        || JS.falsy (f_pincode f) || JS.falsy (f_universityAffiliation f)
        || JS.falsy (f_naacCertPhoto f) || JS.falsy (f_website f)
        || falsy_number (f_noOfBranches f) || falsy_array (f_branches f)
     then mret (mkResponse 400 (Error "All fields are required"))
     else
       _ ← CollegeAdmin_save fresh_id f;
       mret (mkResponse 201
               (Status "ok" "College Admin data saved successfully")))
    (fun error => mkResponse 500 (Error "Error saving College Admin data")).

(** [app.get('/collegeAdmins', ...)] *)
Definition collegeAdmins : Store -> Store * Response Payload :=
  try_catch
    (st ← get; mret (mkResponse 200 (Admins (pending st))))
    (fun error => mkResponse 500 (Message "Failed to fetch college admins")).

(** [app.post('/approveCollegeAdmin', ...)] *)
Definition approveCollegeAdmin (admin : AdminBody)
  : Store -> Store * Response Payload :=
  try_catch
    (_ ← ApprovedCollegeAdmin_create admin;
     _ ← CollegeAdmin_findByIdAndDelete (a_id admin);
     mret (mkResponse 200 (Text "College Admin approved")))
    (fun error => mkResponse 500 (Text "Failed to approve college admin")).

(** [app.post('/disapproveCollegeAdmin', ...)] *)
Definition disapproveCollegeAdmin (id : ObjectId)
  : Store -> Store * Response Payload :=
  try_catch
    (_ ← CollegeAdmin_findByIdAndDelete id;
     mret (mkResponse 200 (Text "College Admin disapproved")))
    (fun error => mkResponse 500 (Text "Failed to disapprove college admin")).

(** The states of the two collections that the rest of the system can
    observe while [approveCollegeAdmin] runs: before the handler, after
    each of its awaited store operations. *)
Definition approve_points (admin : AdminBody) (st : Store) : list Store :=
  match ApprovedCollegeAdmin_create admin st with
  | (st1, Throws _) => [st; st1]
  | (st1, Returns _) =>
      [st; st1; (CollegeAdmin_findByIdAndDelete (a_id admin) st1).1]
  end.

(** The body a client sends to approve a stored request: the record as
    [GET /collegeAdmins] returned it. *)
Definition body_of (d : CollegeAdmin) : AdminBody :=
  mkAdminBody (_id d)
    (mkFields (Some (email d)) (Some (location d)) (Some (pincode d))
              (Some (universityAffiliation d)) (Some (naacCertPhoto d))
              (Some (website d)) (Some (noOfBranches d)) (Some (branches d))).

(** The record with a given id is in a collection. *)
Definition present (id : ObjectId) (docs : list CollegeAdmin) : Prop :=
  id ∈ map _id docs.

(** The invariant of the data model: no request is in both collections. *)
Definition at_most_one (st : Store) : Prop :=
  forall id, ~ (present id (pending st) /\ present id (approved st)).

(** What validation guarantees of a stored request: the required
    strings are not empty. *)
Definition valid (d : CollegeAdmin) : Prop :=
  email d <> "" /\ location d <> "" /\ pincode d <> ""
  /\ universityAffiliation d <> "" /\ naacCertPhoto d <> ""
  /\ website d <> "".

End CollegeAdminWorkflow.

(* ===================================================================== *)
(** ** Placement data workflow *)

(** A decoded CSV file: one list of (header, cell) pairs per record. *)
Definition Row := list (string * string).

(** The external CSV decoder ([csv-parser] behind [parseCsvFile]). *)
Class CsvDecoder : Type := {
  csvParser : string -> list Row
}.

Module Placement.

(** A document of [placementDataSchema]. *)
Record PlacementData : Type := mkPlacementData {
  _id : ObjectId;
  collegeName : string;
  year : Z;
  fileUrl : string;
  fileName : string;
  mimeType : string;
  approved : bool
}.

#[global] Instance PlacementData_eq_dec : EqDecision PlacementData.
Proof. solve_decision. Defined.

(** The collection and the upload directory (path to contents). *)
Record Store : Type := mkStore {
  records : list PlacementData;
  disk : gmap string string
}.

(** [req.file] as multer fills it. *)
Record UploadedFile : Type := mkUploadedFile {
  originalname : string;
  mimetype : string;
  contents : string
}.

Record UploadRequest : Type := mkUploadRequest {
  u_collegeName : option string;
  u_year : option string;
  u_file : option UploadedFile
}.

Record Query : Type := mkQuery {
  q_collegeName : option string;
  q_year : option string
}.

(** An entry of the pending list and an entry of the approved list. *)
Record PendingEntry : Type := mkPendingEntry {
  pe_id : ObjectId;
  pe_collegeName : string;
  pe_year : Z;
  pe_data : list Row
}.

Record ApprovedEntry : Type := mkApprovedEntry {
  ae_collegeName : string;
  ae_year : Z;
  ae_data : list Row
}.

Inductive Payload : Type :=
| Message (message : string)
| Approved (message : string) (updatedPlacement : PlacementData)
| PendingList (entries : list PendingEntry)
| ApprovedList (entries : list ApprovedEntry).

Definition has_id (id : ObjectId) (d : PlacementData) : bool :=
  bool_decide (_id d = id).

(** [upload1.single('file')]: [storage1] writes the file under its
    original name before the handler runs. *)
Definition multer_single (req : UploadRequest) (st : Store) : Store :=
  match u_file req with
  | Some f =>
      mkStore (records st)
              (<[ "uploads/" +:+ originalname f := contents f ]> (disk st))
  | None => st
  end.

(** [newData.save()]: the required strings are not empty, [year] is a
    number ([NaN] does not cast), [_id] is unique. *)
Definition save (id : ObjectId) (collegeName : string) (year : option Z)
  (f : UploadedFile) : Op Store unit := fun st =>
  match year with
  | None => (st, Throws ValidationError)
  | Some y =>
      if bool_decide (collegeName = "") || bool_decide (originalname f = "")
         || bool_decide (mimetype f = "")
      then (st, Throws ValidationError)
      else if bool_decide (id ∈ map _id (records st))
      then (st, Throws DuplicateKeyError)
      else
        let doc := mkPlacementData id collegeName y
                     ("uploads/" +:+ originalname f) (originalname f)
                     (mimetype f) false in
        (mkStore (records st ++ [doc])%list (disk st), Returns tt)
  end.

(** [PlacementData.findByIdAndUpdate(id, { approved: true }, { new: true })] *)
Definition set_approved (d : PlacementData) : PlacementData :=
  mkPlacementData (_id d) (collegeName d) (year d) (fileUrl d) (fileName d)
                  (mimeType d) true.

Definition findByIdAndUpdate_approved (id : ObjectId)
  : Op Store (option PlacementData) := fun st =>
  (mkStore (Collection.updateOne (has_id id) set_approved (records st))
           (disk st),
   Returns (set_approved <$> Collection.findOne (has_id id) (records st))).

(** [PlacementData.findByIdAndDelete(id)] *)
Definition findByIdAndDelete (id : ObjectId)
  : Op Store (option PlacementData) := fun st =>
  (mkStore (Collection.deleteOne (has_id id) (records st)) (disk st),
   Returns (Collection.findOne (has_id id) (records st))).

(** [PlacementData.find({ collegeName, year: parseInt(year), approved: true })];
    a [NaN] year does not cast to the Number of the schema. *)
Definition find_approved (collegeName : string) (year : option Z)
  : Op Store (list PlacementData) := fun st =>
  match year with
  | None => (st, Throws CastError)
  | Some y =>
      (st, Returns (Collection.find
                      (fun d => bool_decide (Placement.collegeName d = collegeName)
                                && bool_decide (Placement.year d = y)
                                && approved d)
                      (records st)))
  end.

Section Handlers.
Context `{CsvDecoder}.

(** [app.post('/api/upload', upload1.single('file'), ...)] *)
Definition upload (fresh_id : ObjectId) (req : UploadRequest)
  : Store -> Store * Response Payload := fun st =>
  try_catch
    (match u_file req with
     | Some f =>
         if JS.falsy (u_collegeName req) || JS.falsy (u_year req)
         then mret (mkResponse 400 (Message "Missing required fields"))
         else
           _ ← save fresh_id (JS.field_value (u_collegeName req))
                 (JS.parseInt (JS.field_value (u_year req))) f;
           mret (mkResponse 201 (Message "Data uploaded successfully"))
     | None => mret (mkResponse 400 (Message "Missing required fields"))
     end)
    (fun error => mkResponse 500 (Message "Server error"))
    (multer_single req st).

(** The loop of [/api/get-placement-data]: a record whose file is not
    on the disk is skipped. *)
Fixpoint pending_entries (disk : gmap string string)
  (placementRecords : list PlacementData) : list PendingEntry :=
  match placementRecords with
  | [] => []
  | record :: rest =>
      match disk !! fileUrl record with
      | None => pending_entries disk rest
      | Some file =>
          mkPendingEntry (_id record) (collegeName record) (year record)
                         (csvParser file)
          :: pending_entries disk rest
      end
  end.

(** [app.get('/api/get-placement-data', ...)] *)
Definition get_placement_data : Store -> Store * Response Payload :=
  try_catch
    (st ← get;
     let placementRecords :=
       Collection.find (fun d => negb (approved d)) (records st) in
     mret (mkResponse 200
             (PendingList (pending_entries (disk st) placementRecords))))
    (fun error => mkResponse 500 (Message "Failed to fetch placement data")).

(** [app.post('/api/approve-placement/:id', ...)] *)
Definition approve_placement (placementId : option ObjectId)
  : Store -> Store * Response Payload :=
  try_catch
    (match placementId with
     | None => mret (mkResponse 400 (Message "Placement ID is required"))
     | Some id =>
         updatedPlacement ← findByIdAndUpdate_approved id;
         match updatedPlacement with
         | None => mret (mkResponse 404 (Message "Placement not found"))
         | Some d =>
             mret (mkResponse 200
                     (Approved "Placement approved successfully" d))
         end
     end)
    (fun error => mkResponse 500 (Message "Failed to approve placement")).

(** [app.delete('/api/reject-placement/:id', ...)] *)
Definition reject_placement (placementId : option ObjectId)
  : Store -> Store * Response Payload :=
  try_catch
    (match placementId with
     | None => mret (mkResponse 400 (Message "Placement ID is required"))
     | Some id =>
         deletedPlacement ← findByIdAndDelete id;
         match deletedPlacement with
         | None => mret (mkResponse 404 (Message "Placement not found"))
         | Some _ =>
             mret (mkResponse 200 (Message "Placement rejected successfully"))
         end
     end)
    (fun error => mkResponse 500 (Message "Failed to reject placement")).

(** The loop of [/api/get-approved-placement-data]. *)
Fixpoint approved_entries (disk : gmap string string)
  (placementRecords : list PlacementData) : list ApprovedEntry :=
  match placementRecords with
  | [] => []
  | record :: rest =>
      match disk !! fileUrl record with
      | Some file =>
          mkApprovedEntry (collegeName record) (year record) (csvParser file)
          :: approved_entries disk rest
      | None => approved_entries disk rest
      end
  end.

(** [app.get('/api/get-approved-placement-data', ...)] *)
Definition get_approved_placement_data (q : Query)
  : Store -> Store * Response Payload :=
  try_catch
    (if JS.falsy (q_collegeName q) || JS.falsy (q_year q)
     then mret (mkResponse 400 (Message "College name and year are required"))
     else
       placementRecords ←
         find_approved (JS.field_value (q_collegeName q))
                       (JS.parseInt (JS.field_value (q_year q)));
       if (length placementRecords =? 0)%nat
       then mret (mkResponse 404
              (Message "No approved placements found for the specified college and year"))
       else
         st ← get;
         mret (mkResponse 200
                 (ApprovedList (approved_entries (disk st) placementRecords))))
    (fun error =>
       mkResponse 500 (Message "Failed to fetch approved placement data")).

End Handlers.

(** The ids that the pending list shows. *)
Definition listed_ids (p : Payload) : list ObjectId :=
  match p with
  | PendingList entries => map pe_id entries
  | _ => []
  end.

(** The entries of an approved list. *)
Definition listed_entries (p : Payload) : list ApprovedEntry :=
  match p with
  | ApprovedList entries => entries
  | _ => []
  end.

(** The approved records that match both filters. *)
Definition matching (collegeName : string) (year : Z) (st : Store)
  : list PlacementData :=
  Collection.find
    (fun d => bool_decide (Placement.collegeName d = collegeName)
              && bool_decide (Placement.year d = year) && approved d)
    (records st).

End Placement.

(* ===================================================================== *)
(** ** Transaction ledger *)

Module Ledger.

(** A document of [transactionSchema]; the paths without a default may
    be absent. *)
Record Transaction : Type := mkTransaction {
  _id : ObjectId;
  email : option string;
  orderId : option string;
  amount : option Z;
  status : string;
  timestamp : Date
}.

#[global] Instance Transaction_eq_dec : EqDecision Transaction.
Proof. solve_decision. Defined.

Definition Transactions := list Transaction.

Record TransactionBody : Type := mkTransactionBody {
  t_email : option string;
  t_orderId : option string;
  t_amount : option Z
}.

Inductive Payload : Type :=
| Document (doc : Transaction)
| Message (message : string)
| Error (error : string).

(** What the handler draws from its environment. *)
Record Ambient : Type := mkAmbient {
  fresh_id : ObjectId;
  now : Date
}.

(** The defaults of the schema. *)
Definition default_status : string := "pending".

(** [transaction.save()] *)
Definition save (doc : Transaction) : Op Transactions Transaction :=
  fun txs =>
    if bool_decide (_id doc ∈ map _id txs)
    then (txs, Throws DuplicateKeyError)
    else ((txs ++ [doc])%list, Returns doc).

(** [app.post('/transactions', ...)] *)
Definition transactions (amb : Ambient) (req : TransactionBody)
  : Transactions -> Transactions * Response Payload :=
  let transaction :=
    mkTransaction (fresh_id amb) (t_email req) (t_orderId req) (t_amount req)
                  default_status (now amb) in
  try_catch
    (savedTransaction ← save transaction;
     mret (mkResponse 201 (Document savedTransaction)))
    (fun err => mkResponse 400 (Message (error_message err))).

Definition has_orderId (o : string) (d : Transaction) : bool :=
  bool_decide (orderId d = Some o).

Definition set_status (s : string) (d : Transaction) : Transaction :=
  mkTransaction (_id d) (email d) (orderId d) (amount d) s (timestamp d).

(** [Transaction.findOneAndUpdate({ orderId }, { status },
    { new: true, upsert: true })]: the first transaction with the order
    id gets the status; when there is none, a document is inserted with
    the order id of the filter, the status of the update and the defaults
    of the schema. *)
Definition findOneAndUpdate_upsert (amb : Ambient) (o s : string)
  : Op Transactions Transaction := fun txs =>
  match Collection.findOne (has_orderId o) txs with
  | Some d =>
      (Collection.updateOne (has_orderId o) (set_status s) txs,
       Returns (set_status s d))
  | None =>
      let doc := mkTransaction (fresh_id amb) None (Some o) None s (now amb) in
      if bool_decide (_id doc ∈ map _id txs)
      then (txs, Throws DuplicateKeyError)
      else ((txs ++ [doc])%list, Returns doc)
  end.

(** [app.post('/payment-status', ...)] for a body with both fields. *)
Definition payment_status (amb : Ambient) (orderId status : string)
  : Transactions -> Transactions * Response Payload :=
  try_catch
    (transaction ← findOneAndUpdate_upsert amb orderId status;
     mret (mkResponse 200 (Document transaction)))
    (fun error => mkResponse 500 (Error "Error updating payment status")).

End Ledger.

(* ===================================================================== *)
(** ** Instances of the external services, for the worked examples *)

Module Examples.

(** A stand-in for bcrypt: the hash is a marker, the salt (four
    characters), a separator and the password; comparison recomputes
    it from the salt kept in the hash. *)
Definition toy_hash (password salt : string) : string :=
  "$" +:+ salt +:+ "$" +:+ password.

Definition toy_compare (password hash : string) : bool :=
  bool_decide (hash = toy_hash password (String.substring 1 4 hash)).

#[global] Instance crypto : Crypto := {
  bcrypt_hash := toy_hash;
  bcrypt_compare := toy_compare;
  jwt_sign id userType now := "jwt." +:+ userType;
  bcrypt_hash_not_empty := fun password salt => ltac:(discriminate)
}.

(** The text up to the first occurrence of a separator, and the rest. *)
Fixpoint split_on (sep : ascii) (s : string) (cur : string) : list string :=
  match s with
  | EmptyString => [cur]
  | String c s' =>
      if decide (c = sep) then cur :: split_on sep s' EmptyString
      else split_on sep s' (cur +:+ String c EmptyString)
  end.

(** A plain CSV decoder: the first line holds the headers, every other
    line that is not empty is a record. *)
#[global] Instance csv : CsvDecoder := {
  csvParser file :=
    match split_on (ascii_of_nat 10) file EmptyString with
    | [] => []
    | header :: lines =>
        let headers := split_on ","%char header EmptyString in
        map (fun line => zip headers (split_on ","%char line EmptyString))
            (List.filter (fun line => negb (bool_decide (line = ""))) lines)
    end
}.

Definition amb1 : Auth.Ambient := Auth.mkAmbient 1 1700000000000 "s4lt".
Definition amb2 : Auth.Ambient := Auth.mkAmbient 2 1700000060000 "pepr".

Definition alice : Auth.RegisterBody :=
  Auth.mkRegisterBody (Some "Alice") (Some "Alice@Example.com")
                      (Some "hunter2") (Some "student").

Definition alice_again : Auth.RegisterBody :=
  Auth.mkRegisterBody (Some "Al") (Some "ALICE@example.COM")
                      (Some "other") (Some "admin").


(** A pending college-admin request. *)
Definition request7 : CollegeAdminWorkflow.CollegeAdmin :=
  CollegeAdminWorkflow.mkCollegeAdmin 7 "dean@college.edu" "Pune" "411001"
    "SPPU" "/uploads/naac.png" "https://college.edu" 2 ["CSE"; "ECE"].

Definition one_pending : CollegeAdminWorkflow.Store :=
  CollegeAdminWorkflow.mkStore [request7] [].



(** A profile submission whose [marks10] is no JSON (the key is not
    quoted); the other three encoded fields are. *)
Definition malformed_marks10 : StudentProfile.Request :=
  StudentProfile.mkRequest
    (StudentProfile.mkBody (Some "alice@example.com") (Some "Pune")
       (Some "411001") (Some "{math: 90}") (Some "true")
       (Some "{}") (Some "{}") None None None)
    (Some (StudentProfile.mkFiles (Some "1700000000000.png") None)).

(** A text between double quotes. *)
Definition quoted (s : string) : string :=
  String JS.dquote (s +:+ String JS.dquote EmptyString).

(** The same submission with its [marks10] in JSON: an object with the
    key [math] and the string [90]. *)
Definition wellformed_marks10 : StudentProfile.Request :=
  StudentProfile.mkRequest
    (StudentProfile.mkBody (Some "alice@example.com") (Some "Pune")
       (Some "411001")
       (Some ("{" +:+ quoted "math" +:+ ": " +:+ quoted "90" +:+ "}"))
       (Some "true") (Some "{}") (Some "{}") None None None)
    (Some (StudentProfile.mkFiles (Some "1700000000000.png") None)).

(** A pending placement record, with and without its file. *)
Definition placement1 : Placement.PlacementData :=
  Placement.mkPlacementData 1 "MIT" 2023 "uploads/mit.csv" "mit.csv"
                            "text/csv" false.

Definition mit_csv : string :=
  "name,package" +:+ String (ascii_of_nat 10) "Asha,12".

Definition with_file : Placement.Store :=
  Placement.mkStore [placement1] {[ "uploads/mit.csv" := mit_csv ]}.


(** The record approved, its file missing. *)
Definition approved_file_lost : Placement.Store :=
  Placement.mkStore [Placement.set_approved placement1] ∅.

Definition mit_2023 : Placement.Query :=
  Placement.mkQuery (Some "MIT") (Some "2023").

Definition ledger_amb : Ledger.Ambient := Ledger.mkAmbient 5 1700000000000.

Definition paid_order : Ledger.Transaction :=
  Ledger.mkTransaction 3 (Some "alice@example.com") (Some "order_1")
                       (Some 499) "pending" 1690000000000.

End Examples.

(* ===================================================================== *)
(** ** Student queries: [GET /api/students/byEmail],
    [GET /api/students/recommendationInfo] and [GET /students] *)

Module StudentQueries.

(** The JSON bodies the three handlers send. *)
Inductive Payload : Type :=
| Message (message : string)               (* [{message}] *)
| Failure (message error : string)         (* [{message, error}] *)
| Document (student : StudentProfile.Student)
| Info (email : string) (location : option string)
       (fatherSalary motherSalary : option JS.Json)
| Documents (students : list StudentProfile.Student).

Definition has_email (e : string) (s : StudentProfile.Student) : bool :=
  bool_decide (StudentProfile.email s = e).

(** [Student.findOne({ email })] *)
Definition findOne (e : string) (students : StudentProfile.Students)
  : option StudentProfile.Student :=
  Collection.findOne (has_email e) students.

(** The property [key] of a decoded value: of an object, the member that
    was written last under the key; [undefined] otherwise. *)
Definition member (key : string) (v : JS.Json) : option JS.Json :=
  match v with
  | JS.JObject members =>
      snd <$> List.find (fun m => bool_decide (m.1 = key)) (rev members)
  | _ => None
  end.

(** [app.get('/api/students/byEmail', ...)] *)
Definition byEmail (email : option string)
  : StudentProfile.Students -> StudentProfile.Students * Response Payload :=
  try_catch
    (if JS.falsy email
     then mret (mkResponse 400 (Message "Email is required"))
     else
       students ← get;
       match findOne (JS.field_value email) students with
       | None => mret (mkResponse 404 (Message "Student not found"))
       | Some student => mret (mkResponse 200 (Document student))
       end)
    (fun error =>
       mkResponse 500 (Failure "Failed to retrieve student" (error_message error))).

(** [app.get('/api/students/recommendationInfo', ...)]; the projection
    keeps the four paths that the answer reads. *)
Definition recommendationInfo (email : option string)
  : StudentProfile.Students -> StudentProfile.Students * Response Payload :=
  try_catch
    (if JS.falsy email
     then mret (mkResponse 400 (Message "Email is required"))
     else
       students ← get;
       match findOne (JS.field_value email) students with
       | None => mret (mkResponse 404 (Message "Student not found"))
       | Some student =>
           mret (mkResponse 200
                   (Info (StudentProfile.email student)
                         (StudentProfile.location student)
                         (member "fatherSalary" (StudentProfile.parents student))
                         (member "motherSalary" (StudentProfile.parents student))))
       end)
    (fun error =>
       mkResponse 500 (Failure "Error fetching student data" (error_message error))).

(** [app.get('/students', ...)] *)
Definition students
  : StudentProfile.Students -> StudentProfile.Students * Response Payload :=
  try_catch
    (students ← get; mret (mkResponse 200 (Documents students)))
    (fun err => mkResponse 500 (Message (error_message err))).

End StudentQueries.

(* ===================================================================== *)
(** ** The services as a whole: a request, and the handler it reaches *)

Module CollegeAdminService.

Inductive Request : Type :=
| Submit (fresh_id : ObjectId) (fields : CollegeAdminWorkflow.Fields)
| List
| Approve (admin : CollegeAdminWorkflow.AdminBody)
| Disapprove (id : ObjectId).

(** The route table of the college-admin workflow. *)
Definition handle (r : Request)
  : CollegeAdminWorkflow.Store ->
    CollegeAdminWorkflow.Store * Response CollegeAdminWorkflow.Payload :=
  match r with
  | Submit fresh_id fields => CollegeAdminWorkflow.collegeAdminData fresh_id fields
  | List => CollegeAdminWorkflow.collegeAdmins
  | Approve admin => CollegeAdminWorkflow.approveCollegeAdmin admin
  | Disapprove id => CollegeAdminWorkflow.disapproveCollegeAdmin id
  end.

(** The store after a run of requests, one after the other. *)
Definition run (rs : list Request) (st : CollegeAdminWorkflow.Store)
  : CollegeAdminWorkflow.Store :=
  fold_left (fun st r => (handle r st).1) rs st.

End CollegeAdminService.

Module PlacementService.

Inductive Request : Type :=
| Upload (fresh_id : ObjectId) (req : Placement.UploadRequest)
| ListPending
| Approve (placementId : option ObjectId)
| Reject (placementId : option ObjectId)
| QueryApproved (q : Placement.Query).

Section Routes.
Context `{CsvDecoder}.

(** The route table of the placement workflow. *)
Definition handle (r : Request)
  : Placement.Store -> Placement.Store * Response Placement.Payload :=
  match r with
  | Upload fresh_id req => Placement.upload fresh_id req
  | ListPending => Placement.get_placement_data
  | Approve placementId => Placement.approve_placement placementId
  | Reject placementId => Placement.reject_placement placementId
  | QueryApproved q => Placement.get_approved_placement_data q
  end.

(** The store after a run of requests, one after the other. *)
Definition run (rs : list Request) (st : Placement.Store) : Placement.Store :=
  fold_left (fun st r => (handle r st).1) rs st.

End Routes.

(** Every record refers to a file that is on the disk. *)
Definition files_present (st : Placement.Store) : Prop :=
  forall d, d ∈ Placement.records st ->
            is_Some (Placement.disk st !! Placement.fileUrl d).

(** What [save] guarantees of the stored records: the ids are distinct,
    a record has a college name, and its file is the upload of its name. *)
Definition well_formed (st : Placement.Store) : Prop :=
  NoDup (map Placement._id (Placement.records st))
  /\ Forall (fun d => Placement.collegeName d <> ""
                      /\ Placement.fileUrl d = "uploads/" +:+ Placement.fileName d)
            (Placement.records st).

End PlacementService.

Module LedgerService.

Inductive Request : Type :=
| Record (amb : Ledger.Ambient) (body : Ledger.TransactionBody)
| UpdateStatus (amb : Ledger.Ambient) (orderId status : string).

(** The route table of the ledger. *)
Definition handle (r : Request)
  : Ledger.Transactions -> Ledger.Transactions * Response Ledger.Payload :=
  match r with
  | Record amb body => Ledger.transactions amb body
  | UpdateStatus amb orderId status => Ledger.payment_status amb orderId status
  end.

(** A transaction without its status. *)
Definition but_status (d : Ledger.Transaction)
  : ObjectId * option string * option string * option Z * Date :=
  (Ledger._id d, Ledger.email d, Ledger.orderId d, Ledger.amount d,
   Ledger.timestamp d).

(** The ledger after a run of requests, one after the other. *)
Definition run (rs : list Request) (txs : Ledger.Transactions)
  : Ledger.Transactions :=
  fold_left (fun txs r => (handle r txs).1) rs txs.

End LedgerService.

(* ===================================================================== *)
(** ** More worked examples *)

Module Scenarios.

(** A registration under a role that the schema does not know. *)
Definition teacher : Auth.RegisterBody :=
  Auth.mkRegisterBody (Some "Tom") (Some "tom@example.com") (Some "secret")
                      (Some "teacher").

(** A second user, and the store after Alice and Bob registered. *)
Definition bob : Auth.RegisterBody :=
  Auth.mkRegisterBody (Some "Bob") (Some "BOB@example.com") (Some "letmein")
                      (Some "admin").

Definition alice_and_bob : Auth.Users :=
  Auth.register_all [(Examples.amb1, Examples.alice); (Examples.amb2, bob)] [].

(** The profile store after the submission of
    [Examples.wellformed_marks10]. *)
Definition one_student : StudentProfile.Students :=
  (StudentProfile.submitDetails 1 Examples.wellformed_marks10 []).1.

(** A submission with every field but no branch yet, and the same with
    a branch count of zero. *)
Definition new_college : CollegeAdminWorkflow.Fields :=
  CollegeAdminWorkflow.mkFields (Some "head@institute.edu") (Some "Nagpur")
    (Some "440001") (Some "RTMNU") (Some "/uploads/cert.png")
    (Some "https://institute.edu") (Some 1) (Some []).


(** The fields of [Examples.request7] with another email. *)
Definition other_email : CollegeAdminWorkflow.Fields :=
  CollegeAdminWorkflow.mkFields (Some "someone@else.org") (Some "Pune")
    (Some "411001") (Some "SPPU") (Some "/uploads/naac.png")
    (Some "https://college.edu") (Some 2) (Some ["CSE"; "ECE"]).

Definition request7_other_email : CollegeAdminWorkflow.CollegeAdmin :=
  CollegeAdminWorkflow.mkCollegeAdmin 7 "someone@else.org" "Pune" "411001"
    "SPPU" "/uploads/naac.png" "https://college.edu" 2 ["CSE"; "ECE"].

(** A run of the college-admin workflow. *)
Definition admin_run : list CollegeAdminService.Request :=
  [CollegeAdminService.Submit 8 new_college;
   CollegeAdminService.Approve (CollegeAdminWorkflow.body_of Examples.request7);
   CollegeAdminService.List;
   CollegeAdminService.Disapprove 8].

(** Two files of one name, and uploads of them. *)
Definition mit_file : Placement.UploadedFile :=
  Placement.mkUploadedFile "mit.csv" "text/csv" Examples.mit_csv.

Definition mit_file_revised : Placement.UploadedFile :=
  Placement.mkUploadedFile "mit.csv" "text/csv"
    ("name,package" +:+ String (ascii_of_nat 10) "Ravi,15").

Definition upload_mit : Placement.UploadRequest :=
  Placement.mkUploadRequest (Some "MIT") (Some "2023") (Some mit_file).

Definition upload_mit_revised : Placement.UploadRequest :=
  Placement.mkUploadRequest (Some "MIT") (Some "2024") (Some mit_file_revised).


Definition no_placements : Placement.Store := Placement.mkStore [] ∅.

(** A run of the placement workflow. *)
Definition placement_run : list PlacementService.Request :=
  [PlacementService.Upload 1 upload_mit;
   PlacementService.Upload 2 upload_mit_revised;
   PlacementService.Approve (Some 1%nat);
   PlacementService.ListPending;
   PlacementService.Reject (Some 2%nat);
   PlacementService.QueryApproved Examples.mit_2023].

(** Two payments recorded under one order id. *)
Definition first_attempt : Ledger.TransactionBody :=
  Ledger.mkTransactionBody (Some "alice@example.com") (Some "order_9")
                           (Some 499).

Definition second_attempt : Ledger.TransactionBody :=
  Ledger.mkTransactionBody (Some "alice@example.com") (Some "order_9")
                           (Some 499).

Definition ledger_amb6 : Ledger.Ambient := Ledger.mkAmbient 6 1700000100000.
Definition ledger_amb7 : Ledger.Ambient := Ledger.mkAmbient 7 1700000200000.

End Scenarios.

(* ===================================================================== *)
(** * Properties *)

(** ** Strings *)

Lemma falsy_Some (s : string) : s <> "" -> JS.falsy (Some s) = false.
Proof. intros Hs. unfold JS.falsy. destruct (decide (s = "")); congruence. Qed.

Lemma falsy_false (f : option string) :
  JS.falsy f = false -> exists s, f = Some s /\ s <> "".
Proof.
  destruct f as [s|]; simpl; [|discriminate].
  destruct (decide (s = "")); [discriminate|]. eauto.
Qed.

Lemma lower_ascii_idempotent (c : ascii) :
  JS.lower_ascii (JS.lower_ascii c) = JS.lower_ascii c.
Proof.
  destruct c as [[] [] [] [] [] [] [] []]; vm_compute; reflexivity.
Qed.

Lemma lower_ascii_moves_upper (c : ascii) :
  JS.is_upper c = true -> JS.lower_ascii c <> c.
Proof.
  destruct c as [[] [] [] [] [] [] [] []]; vm_compute; congruence.
Qed.

Lemma toLowerCase_idempotent (s : string) :
  JS.toLowerCase (JS.toLowerCase s) = JS.toLowerCase s.
Proof.
  induction s as [|c s IH]; simpl; [reflexivity|].
  rewrite lower_ascii_idempotent, IH. reflexivity.
Qed.

Lemma toLowerCase_not_empty (s : string) : s <> "" -> JS.toLowerCase s <> "".
Proof. destruct s; simpl; congruence. Qed.

(** A string with an upper-case letter is not its own lower-casing. *)
Lemma toLowerCase_moves_upper (s : string) :
  JS.has_upper s = true -> JS.toLowerCase s <> s.
Proof.
  induction s as [|c s IH]; simpl; [discriminate|].
  intros Hup Heq. injection Heq as Hc Hs.
  apply orb_true_iff in Hup as [Hup|Hup].
  - exact (lower_ascii_moves_upper c Hup Hc).
  - exact (IH Hup Hs).
Qed.

(** ** [JSON.parse]: the fuel of the descent is enough *)

Lemma skip_ws_length (s : string) :
  (String.length (JS.skip_ws s) <= String.length s)%nat.
Proof.
  induction s as [|c s IH]; simpl; [lia|].
  destruct (JS.is_json_space c); simpl; lia.
Qed.

Lemma eat_length (c : ascii) (s r : string) :
  JS.eat c s = Some r -> String.length s = S (String.length r).
Proof.
  destruct s as [|c' s]; simpl; [discriminate|].
  destruct (decide (c' = c)); [|discriminate]. intros [= ->]. reflexivity.
Qed.

Lemma span_digits_length (s d r : string) :
  JS.span_digits s = (d, r) ->
  String.length s = (String.length d + String.length r)%nat.
Proof.
  revert d r. induction s as [|c s IH]; simpl; intros d r.
  - intros [= <- <-]. reflexivity.
  - destruct (JS.is_digit c).
    + destruct (JS.span_digits s) as [d' r'] eqn:Hs. intros [= <- <-].
      simpl. rewrite (IH d' r' eq_refl). reflexivity.
    + intros [= <- <-]. reflexivity.
Qed.

Lemma strip_prefix_length (p s r : string) :
  JS.strip_prefix p s = Some r ->
  String.length s = (String.length p + String.length r)%nat.
Proof.
  revert s. induction p as [|a p IH]; intros s; simpl.
  - intros [= ->]. reflexivity.
  - destruct s as [|b s]; [discriminate|].
    destruct (decide (a = b)); [|discriminate].
    intros Hp. simpl. rewrite (IH s Hp). reflexivity.
Qed.

Lemma not_empty_length (d : string) : d <> "" -> (1 <= String.length d)%nat.
Proof. destruct d; simpl; [congruence | lia]. Qed.

(** A string literal and a number literal consume a character at least. *)
Lemma string_body_length (s t r : string) :
  JS.string_body s = Some (t, r) -> (String.length r < String.length s)%nat.
Proof.
  remember (String.length s) as n eqn:Hn.
  assert (Hle : (String.length s <= n)%nat) by lia. clear Hn.
  revert s t r Hle. induction n as [|n IH]; intros s t r Hle.
  - destruct s; simpl in *; [discriminate | lia].
  - destruct s as [|c s]; simpl in *; [discriminate|].
    destruct (decide (c = JS.dquote)) as [Hq|Hq]; [intros [= <- <-]; lia|].
    destruct (decide (c = "\"%char)) as [Hbs|Hbs].
    + destruct s as [|e s1]; [discriminate|].
      destruct (decide (e = "u"%char)) as [Hu|Hu].
      * destruct s1 as [|h1 [|h2 [|h3 [|h4 s2]]]]; try discriminate.
        destruct (JS.hex_value h1), (JS.hex_value h2), (JS.hex_value h3),
          (JS.hex_value h4); simpl; try discriminate.
        destruct (JS.string_body s2) as [[t' r']|] eqn:Hb; simpl;
          [|discriminate].
        intros [= <- <-]. apply IH in Hb; simpl in *; lia.
      * destruct (JS.escape e); simpl; [|discriminate].
        destruct (JS.string_body s1) as [[t' r']|] eqn:Hb; simpl;
          [|discriminate].
        intros [= <- <-]. apply IH in Hb; simpl in *; lia.
    + destruct (nat_of_ascii c <? 32)%nat; [discriminate|].
      destruct (JS.string_body s) as [[t' r']|] eqn:Hb; simpl; [|discriminate].
      intros [= <- <-]. apply IH in Hb; lia.
Qed.

Lemma number_length (s n r : string) :
  JS.number s = Some (n, r) -> (String.length r < String.length s)%nat.
Proof.
  unfold JS.number.
  assert (H1 : exists minus s1,
             match JS.eat "-" s with Some r => ("-", r) | None => ("", s) end
             = (minus, s1)
             /\ (String.length s1 <= String.length s)%nat).
  { destruct (JS.eat "-" s) as [r0|] eqn:He; eexists _, _;
      (split; [reflexivity|]); [apply eat_length in He|]; lia. }
  destruct H1 as (minus & s1 & -> & Hs1).
  destruct (JS.eat "0" s1) as [r0|] eqn:H0; simpl.
  2: destruct (JS.span_digits s1) as [d0 r0] eqn:Hd0;
     destruct (decide (d0 = "")) as [|Hne0]; simpl; [discriminate|];
     apply span_digits_length in Hd0; apply not_empty_length in Hne0.
  1: apply eat_length in H0.
  all: match goal with
       | |- context [JS.eat "." ?x] => destruct (JS.eat "." x) as [r1|] eqn:Hdot
       end; simpl.
  all: try (apply eat_length in Hdot;
            destruct (JS.span_digits r1) as [d1 r1'] eqn:Hd1;
            destruct (decide (d1 = "")); simpl; [discriminate|];
            apply span_digits_length in Hd1).
  all: match goal with
       | |- context [match ?x with EmptyString => _ | String _ _ => _ end] =>
           destruct x as [|e r2] eqn:Hx
       end; simpl; try (intros [= <- <-]; simpl in *; lia).
  all: destruct (decide (e = "e"%char \/ e = "E"%char)); simpl;
    try (intros [= <- <-]; simpl in *; lia).
  all: destruct (JS.eat "+" r2) as [r3|] eqn:Hplus;
    [apply eat_length in Hplus
    | destruct (JS.eat "-" r2) as [r3|] eqn:Hminus;
      [apply eat_length in Hminus|]].
  all: match goal with
       | |- context [JS.span_digits ?x] =>
           destruct (JS.span_digits x) as [d2 r4] eqn:Hd2
       end;
    destruct (decide (d2 = "")); simpl; [discriminate|];
    apply span_digits_length in Hd2;
    intros [= <- <-]; simpl in *; lia.
Qed.

(** The equations of the descent. *)
Lemma value_S (fuel : nat) (s : string) :
  JS.value (S fuel) s
  = match JS.skip_ws s with
    | EmptyString => None
    | String c r =>
        if decide (c = "{"%char) then
          match JS.skip_ws r with
          | EmptyString => None
          | String c' r' =>
              if decide (c' = "}"%char) then Some (JS.JObject [], r')
              else '(ms, r'') ← JS.members fuel r; Some (JS.JObject ms, r'')
          end
        else if decide (c = "["%char) then
          match JS.skip_ws r with
          | EmptyString => None
          | String c' r' =>
              if decide (c' = "]"%char) then Some (JS.JArray [], r')
              else '(es, r'') ← JS.elements fuel r; Some (JS.JArray es, r'')
          end
        else if decide (c = JS.dquote) then
          '(t, r') ← JS.string_body r; Some (JS.JString t, r')
        else if decide (c = "t"%char) then
          r' ← JS.strip_prefix "rue" r; Some (JS.JBool true, r')
        else if decide (c = "f"%char) then
          r' ← JS.strip_prefix "alse" r; Some (JS.JBool false, r')
        else if decide (c = "n"%char) then
          r' ← JS.strip_prefix "ull" r; Some (JS.JNull, r')
        else '(n, r') ← JS.number (String c r); Some (JS.JNumber n, r')
    end.
Proof. reflexivity. Qed.

Lemma elements_S (fuel : nat) (s : string) :
  JS.elements (S fuel) s
  = '(v, r) ← JS.value fuel s;
    match JS.skip_ws r with
    | EmptyString => None
    | String c r' =>
        if decide (c = ","%char) then
          '(vs, r'') ← JS.elements fuel r'; Some (v :: vs, r'')
        else if decide (c = "]"%char) then Some ([v], r')
        else None
    end.
Proof. reflexivity. Qed.

Lemma members_S (fuel : nat) (s : string) :
  JS.members (S fuel) s
  = match JS.skip_ws s with
    | EmptyString => None
    | String c r =>
        if decide (c = JS.dquote) then
          '(k, r1) ← JS.string_body r;
          match JS.skip_ws r1 with
          | EmptyString => None
          | String c1 r2 =>
              if decide (c1 = ":"%char) then
                '(v, r3) ← JS.value fuel r2;
                match JS.skip_ws r3 with
                | EmptyString => None
                | String c3 r4 =>
                    if decide (c3 = ","%char) then
                      '(ms, r5) ← JS.members fuel r4; Some ((k, v) :: ms, r5)
                    else if decide (c3 = "}"%char) then Some ([(k, v)], r4)
                    else None
                end
              else None
          end
        else None
    end.
Proof. reflexivity. Qed.

(** Destructing the next step of a parse that succeeded. *)
Ltac parse_step :=
  match goal with
  | H : None = Some _ |- _ => discriminate H
  | H : Some _ = Some _ |- _ => injection H as <- <-
  | H : context [JS.skip_ws ?x] |- _ =>
      let Hl := fresh "Hl" in
      pose proof (skip_ws_length x) as Hl;
      destruct (JS.skip_ws x); simpl in Hl
  | H : context [decide ?P] |- _ => destruct (decide P)
  | H : context [JS.string_body ?x] |- _ =>
      let Hb := fresh "Hb" in
      destruct (JS.string_body x) as [[? ?]|] eqn:Hb; simpl in H;
      [apply string_body_length in Hb|]
  | H : context [JS.strip_prefix ?p ?x] |- _ =>
      let Hp := fresh "Hp" in
      destruct (JS.strip_prefix p x) eqn:Hp; simpl in H;
      [apply strip_prefix_length in Hp; simpl in Hp|]
  | H : context [JS.number ?x] |- _ =>
      let Hn := fresh "Hn" in
      destruct (JS.number x) as [[? ?]|] eqn:Hn; simpl in H;
      [apply number_length in Hn; simpl in Hn|]
  end.

(** Every successful call of the descent consumes a character. *)
Lemma descent_consumes (fuel : nat) :
  (forall s v r, JS.value fuel s = Some (v, r) ->
                 (String.length r < String.length s)%nat)
  /\ (forall s vs r, JS.elements fuel s = Some (vs, r) ->
                     (String.length r < String.length s)%nat)
  /\ (forall s ms r, JS.members fuel s = Some (ms, r) ->
                     (String.length r < String.length s)%nat).
Proof.
  induction fuel as [|fuel (IHv & IHe & IHm)];
    [repeat split; intros; discriminate|].
  split; [|split].
  - intros s v r Hv. rewrite value_S in Hv.
    repeat parse_step; try lia.
    + destruct (JS.members fuel _) as [[ms r'']|] eqn:Hm; simpl in Hv;
        [|discriminate].
      injection Hv as <- <-. apply IHm in Hm. lia.
    + destruct (JS.elements fuel _) as [[es r'']|] eqn:He; simpl in Hv;
        [|discriminate].
      injection Hv as <- <-. apply IHe in He. lia.
  - intros s vs r He. rewrite elements_S in He.
    destruct (JS.value fuel s) as [[v r1]|] eqn:Hv; simpl in He; [|discriminate].
    apply IHv in Hv. repeat parse_step; try lia.
    destruct (JS.elements fuel _) as [[vs' r'']|] eqn:He'; simpl in He;
      [|discriminate].
    injection He as <- <-. apply IHe in He'. lia.
  - intros s ms r Hm. rewrite members_S in Hm.
    repeat parse_step.
    destruct (JS.value fuel _) as [[v r3]|] eqn:Hv; simpl in Hm; [|discriminate].
    apply IHv in Hv. repeat parse_step; try lia.
    destruct (JS.members fuel _) as [[ms' r5]|] eqn:Hm'; simpl in Hm;
      [|discriminate].
    injection Hm as <- <-. apply IHm in Hm'. lia.
Qed.

(** The analysis of a parse [H] that succeeded, keeping what each step
    found. *)
Ltac analyse H Cv Ce Cm :=
  repeat
    match type of H with
    | None = Some _ => discriminate H
    | context [JS.skip_ws ?x] =>
        let Hl := fresh "Hl" in
        pose proof (skip_ws_length x) as Hl;
        destruct (JS.skip_ws x) eqn:?; simpl in Hl
    | context [decide ?P] => destruct (decide P) eqn:?
    | context [JS.string_body ?x] =>
        let Hb := fresh "Hb" in
        destruct (JS.string_body x) as [[? ?]|] eqn:Hb; simpl in H;
        [pose proof (string_body_length _ _ _ Hb)|]
    | context [JS.value ?f ?x] =>
        let Hb := fresh "Hb" in
        destruct (JS.value f x) as [[? ?]|] eqn:Hb; simpl in H;
        [pose proof (Cv _ _ _ Hb)|]
    | context [JS.elements ?f ?x] =>
        let Hb := fresh "Hb" in
        destruct (JS.elements f x) as [[? ?]|] eqn:Hb; simpl in H;
        [pose proof (Ce _ _ _ Hb)|]
    | context [JS.members ?f ?x] =>
        let Hb := fresh "Hb" in
        destruct (JS.members f x) as [[? ?]|] eqn:Hb; simpl in H;
        [pose proof (Cm _ _ _ Hb)|]
    end.

(** The same steps, replayed in the goal with another fuel. *)
Ltac replay IHv IHe IHm :=
  repeat
    (simpl;
     match goal with
     | |- ?x = ?x => reflexivity
     | E : JS.skip_ws ?x = _ |- context [JS.skip_ws ?x] => rewrite E
     | E : decide ?P = _ |- context [decide ?P] => rewrite E
     | E : JS.string_body ?x = _ |- context [JS.string_body ?x] => rewrite E
     | E : JS.value _ ?x = Some _ |- context [JS.value ?g ?x] =>
         rewrite (IHv g _ _ _ E) by (simpl in *; lia)
     | E : JS.elements _ ?x = Some _ |- context [JS.elements ?g ?x] =>
         rewrite (IHe g _ _ _ E) by (simpl in *; lia)
     | E : JS.members _ ?x = Some _ |- context [JS.members ?g ?x] =>
         rewrite (IHm g _ _ _ E) by (simpl in *; lia)
     end).

(** A parse that succeeds with some fuel succeeds, with the same result,
    with any fuel that is no less than the number of characters it
    consumes. *)
Lemma descent_fuel (fuel : nat) :
  (forall g s v r, JS.value fuel s = Some (v, r) ->
     (String.length s - String.length r <= g)%nat ->
     JS.value g s = Some (v, r))
  /\ (forall g s vs r, JS.elements fuel s = Some (vs, r) ->
        (String.length s - String.length r <= g)%nat ->
        JS.elements g s = Some (vs, r))
  /\ (forall g s ms r, JS.members fuel s = Some (ms, r) ->
        (String.length s - String.length r <= g)%nat ->
        JS.members g s = Some (ms, r)).
Proof.
  induction fuel as [|fuel (IHv & IHe & IHm)];
    [repeat split; intros; discriminate|].
  destruct (descent_consumes fuel) as (Cv & Ce & Cm).
  destruct (descent_consumes (S fuel)) as (Cv' & Ce' & Cm').
  split; [|split].
  - intros g s v r Hv Hg. pose proof (Cv' _ _ _ Hv).
    destruct g as [|g]; [lia|]. rewrite value_S in Hv |- *.
    analyse Hv Cv Ce Cm; try exact Hv;
      injection Hv as <- <-; replay IHv IHe IHm.
  - intros g s vs r He Hg. pose proof (Ce' _ _ _ He).
    destruct g as [|g]; [lia|]. rewrite elements_S in He |- *.
    analyse He Cv Ce Cm; try exact He;
      injection He as <- <-; replay IHv IHe IHm.
  - intros g s ms r Hm Hg. pose proof (Cm' _ _ _ Hm).
    destruct g as [|g]; [lia|]. rewrite members_S in Hm |- *.
    analyse Hm Cv Ce Cm; try exact Hm;
      injection Hm as <- <-; replay IHv IHe IHm.
Qed.

(** The fuel of [JSON_parse] is enough: a text that the descent parses
    with some fuel is parsed by [JSON_parse], and with the same result. *)
Theorem JSON_parse_fuel (fuel : nat) (text : string) (v : JS.Json) (r : string) :
  JS.value fuel text = Some (v, r) ->
  JS.value (S (String.length text)) text = Some (v, r).
Proof.
  intros Hv. apply (proj1 (descent_fuel fuel) _ _ _ _ Hv). lia.
Qed.

(** [JSON_parse] rejects a text only if the descent, whatever its fuel,
    does not read it as one JSON value followed by white space. *)
Corollary JSON_parse_None (text : string) :
  JS.JSON_parse text = None <->
  forall fuel v r, JS.value fuel text = Some (v, r) -> JS.skip_ws r <> "".
Proof.
  unfold JS.JSON_parse. split.
  - intros Hnone fuel v r Hv. rewrite (JSON_parse_fuel fuel text v r Hv) in Hnone.
    destruct (decide (JS.skip_ws r = "")); [discriminate | assumption].
  - intros Hall.
    destruct (JS.value (S (String.length text)) text) as [[v r]|] eqn:Hv;
      [|reflexivity].
    destruct (decide (JS.skip_ws r = "")) as [Hr|]; [|reflexivity].
    destruct (Hall _ _ _ Hv Hr).
Qed.

(** ** The user collection *)

Lemma User_findOne_None (e : string) (users : Auth.Users) :
  Auth.findOne e users = None <-> e ∉ map Auth.email users.
Proof.
  unfold Auth.findOne. induction users as [|u users IH]; simpl.
  - split; [intros _; apply not_elem_of_nil | reflexivity].
  - rewrite not_elem_of_cons. case_bool_decide as Heq.
    + split; [discriminate | intros [Hne _]; congruence].
    + rewrite IH. split; [intros Hn; split; [congruence | exact Hn] | tauto].
Qed.

Lemma User_findOne_Some (e : string) (users : Auth.Users) (u : Auth.User) :
  Auth.findOne e users = Some u -> u ∈ users /\ Auth.email u = e.
Proof.
  unfold Auth.findOne. induction users as [|v users IH]; simpl; [discriminate|].
  case_bool_decide as Heq.
  - intros [= ->]. split; [left | exact Heq].
  - intros Hf. destruct (IH Hf) as [Hin He]. split; [right; exact Hin | exact He].
Qed.

(** Under the unique index on [email], a stored user is the one that
    [findOne] returns for its email. *)
Lemma User_findOne_stored (users : Auth.Users) (u : Auth.User) :
  NoDup (map Auth.email users) -> u ∈ users ->
  Auth.findOne (Auth.email u) users = Some u.
Proof.
  unfold Auth.findOne. induction users as [|v users IH]; simpl.
  - intros _ Hin. inversion Hin.
  - intros Hnd Hin. apply NoDup_cons in Hnd as [Hv Hnd].
    case_bool_decide as Heq.
    + apply elem_of_cons in Hin as [->|Hin]; [reflexivity|].
      exfalso. apply Hv. rewrite Heq. apply list_elem_of_fmap_2. exact Hin.
    + apply elem_of_cons in Hin as [->|Hin]; [congruence|]. exact (IH Hnd Hin).
Qed.

Lemma User_findOne_app (e : string) (users : Auth.Users) (u : Auth.User) :
  Auth.findOne e users = None -> Auth.email u = e ->
  Auth.findOne e (users ++ [u])%list = Some u.
Proof.
  unfold Auth.findOne. induction users as [|v users IH]; simpl.
  - intros _ He. rewrite bool_decide_eq_true_2 by exact He. reflexivity.
  - case_bool_decide; [discriminate|]. exact IH.
Qed.

Section AuthProperties.
Context `{Crypto}.

(** What [register] does to a request that carries the four fields. *)
Lemma register_present (amb : Auth.Ambient) (users : Auth.Users)
      (name email password userType : string) :
  name <> "" -> email <> "" -> password <> "" -> userType <> "" ->
  Auth.register amb
    (Auth.mkRegisterBody (Some name) (Some email) (Some password) (Some userType))
    users
  = match Auth.findOne (JS.toLowerCase email) users with
    | Some _ => (users, Auth.ConflictError)
    | None =>
        match Auth.save
                (Auth.mkUser (Auth.fresh_id amb) name (JS.toLowerCase email)
                   (bcrypt_hash password (Auth.salt amb)) userType
                   (Auth.now amb)) users with
        | (users', Returns _) =>
            (users', mkResponse 201 (Auth.Message "User registered successfully."))
        | (users', Throws _) =>
            (users', mkResponse 500 (Auth.Message "Server error."))
        end
    end.
Proof.
  intros Hn He Hp Ht. unfold Auth.register.
  cbn [Auth.rb_name Auth.rb_email Auth.rb_password Auth.rb_userType].
  rewrite !falsy_Some by assumption. simpl.
  unfold try_catch, mbind, Op_bind, get, mret, Op_ret; simpl.
  destruct (Auth.findOne (JS.toLowerCase email) users); [reflexivity|].
  destruct (Auth.save _ users) as [users' [[]|e]]; reflexivity.
Qed.

(** A request that [register] answers with 201 carried the four fields,
    and the store gained the user under the lower-cased email. *)
Lemma register_created (amb : Auth.Ambient) (users : Auth.Users)
      (req : Auth.RegisterBody) :
  statusCode (Auth.register amb req users).2 = 201 ->
  exists name email password userType,
    req = Auth.mkRegisterBody (Some name) (Some email) (Some password)
                              (Some userType)
    /\ name <> "" /\ email <> "" /\ password <> "" /\ userType <> ""
    /\ (Auth.register amb req users).1
       = (users ++ [Auth.mkUser (Auth.fresh_id amb) name (JS.toLowerCase email)
                      (bcrypt_hash password (Auth.salt amb)) userType
                      (Auth.now amb)])%list.
Proof.
  destruct req as [n e p t]. intros Hst.
  destruct (JS.falsy n) eqn:Hn;
    [unfold Auth.register in Hst; simpl in Hst; rewrite Hn in Hst; discriminate|].
  destruct (JS.falsy e) eqn:He;
    [unfold Auth.register in Hst; simpl in Hst; rewrite Hn, He in Hst; discriminate|].
  destruct (JS.falsy p) eqn:Hp;
    [unfold Auth.register in Hst; simpl in Hst; rewrite Hn, He, Hp in Hst; discriminate|].
  destruct (JS.falsy t) eqn:Ht;
    [unfold Auth.register in Hst; simpl in Hst; rewrite Hn, He, Hp, Ht in Hst; discriminate|].
  apply falsy_false in Hn as (name & -> & Hn).
  apply falsy_false in He as (email & -> & He).
  apply falsy_false in Hp as (password & -> & Hp).
  apply falsy_false in Ht as (userType & -> & Ht).
  exists name, email, password, userType.
  repeat (split; [assumption || reflexivity|]).
  revert Hst. rewrite register_present by assumption.
  destruct (Auth.findOne (JS.toLowerCase email) users); [discriminate|].
  unfold Auth.save.
  repeat (match goal with |- context [if ?b then _ else _] => destruct b end;
          simpl; try discriminate).
  reflexivity.
Qed.

(** [register] keeps every stored email in lower case. *)
Lemma register_keeps_emails_lowercased (amb : Auth.Ambient)
      (users : Auth.Users) (req : Auth.RegisterBody) :
  Auth.emails_lowercased users ->
  Auth.emails_lowercased (Auth.register amb req users).1.
Proof.
  intros Hinv. destruct req as [n e p t]. unfold Auth.register; simpl.
  destruct (JS.falsy n || JS.falsy e || JS.falsy p || JS.falsy t);
    [exact Hinv|].
  unfold try_catch, mbind, Op_bind, get, mret, Op_ret; simpl.
  destruct (Auth.findOne _ users); [exact Hinv|].
  unfold Auth.save.
  repeat (match goal with |- context [if ?b then _ else _] => destruct b end;
          simpl; try exact Hinv).
  apply Forall_app. split; [exact Hinv|].
  constructor; [|constructor]. simpl. apply toLowerCase_idempotent.
Qed.

(** [register] keeps the stored emails distinct, as the unique index
    demands. *)
Lemma register_keeps_emails_unique (amb : Auth.Ambient)
      (users : Auth.Users) (req : Auth.RegisterBody) :
  NoDup (map Auth.email users) ->
  NoDup (map Auth.email (Auth.register amb req users).1).
Proof.
  intros Hnd. destruct req as [n e p t]. unfold Auth.register; simpl.
  destruct (JS.falsy n || JS.falsy e || JS.falsy p || JS.falsy t);
    [exact Hnd|].
  unfold try_catch, mbind, Op_bind, get, mret, Op_ret; simpl.
  destruct (Auth.findOne _ users); [exact Hnd|].
  unfold Auth.save.
  destruct (negb _); [exact Hnd|].
  case_bool_decide; [exact Hnd|].
  case_bool_decide as Hfree; [exact Hnd|]. simpl.
  rewrite map_app. apply NoDup_app. split; [exact Hnd|]. split.
  - intros x Hx Hin. simpl in Hin. apply list_elem_of_singleton in Hin as ->.
    exact (Hfree Hx).
  - apply NoDup_singleton.
Qed.

(** [register] stores users that pass the validation only. *)
Lemma register_keeps_users_valid (amb : Auth.Ambient)
      (users : Auth.Users) (req : Auth.RegisterBody) :
  Forall (fun u => Auth.validate u = true) users ->
  Forall (fun u => Auth.validate u = true) (Auth.register amb req users).1.
Proof.
  intros Hv. destruct req as [n e p t]. unfold Auth.register; simpl.
  destruct (JS.falsy n || JS.falsy e || JS.falsy p || JS.falsy t);
    [exact Hv|].
  unfold try_catch, mbind, Op_bind, get, mret, Op_ret; simpl.
  destruct (Auth.findOne _ users); [exact Hv|].
  unfold Auth.save.
  destruct (Auth.validate _) eqn:Hvalid; simpl; [|exact Hv].
  case_bool_decide; [exact Hv|]. case_bool_decide; [exact Hv|]. simpl.
  apply Forall_app. split; [exact Hv|].
  apply Forall_cons. split; [exact Hvalid | apply Forall_nil_2].
Qed.

(** Every store that the service can be in is well formed. *)
Lemma reachable_well_formed (users : Auth.Users) :
  Auth.reachable users -> Auth.well_formed users.
Proof.
  induction 1 as [|amb req users _ (Hlow & Hnd & Hvalid)].
  - split; [apply Forall_nil_2|]. split; [apply NoDup_nil_2 | apply Forall_nil_2].
  - split; [apply register_keeps_emails_lowercased; exact Hlow|].
    split; [apply register_keeps_emails_unique; exact Hnd|].
    apply register_keeps_users_valid; exact Hvalid.
Qed.

Lemma valid_user_has_email (u : Auth.User) :
  Auth.validate u = true -> Auth.email u <> "".
Proof.
  unfold Auth.validate. intros Hv He.
  repeat (apply andb_true_iff in Hv as [Hv ?]).
  rewrite (bool_decide_eq_true_2 _ He) in *. discriminate.
Qed.

(** What [login] does to a request that carries both fields. *)
Lemma login_present (amb : Auth.Ambient) (users : Auth.Users)
      (email password : string) :
  email <> "" -> password <> "" ->
  (Auth.login amb (Auth.mkLoginBody (Some email) (Some password)) users).2
  = match Auth.findOne email users with
    | None => Auth.AuthError
    | Some user =>
        if bcrypt_compare password (Auth.password user)
        then mkResponse 200
               (Auth.Session
                  (jwt_sign (Auth._id user) (Auth.userType user) (Auth.now amb))
                  (Auth.userType user) (Auth.name user))
        else Auth.AuthError
    end.
Proof.
  intros He Hp. unfold Auth.login.
  cbn [Auth.lb_email Auth.lb_password].
  rewrite !falsy_Some by assumption. simpl.
  unfold try_catch, mbind, Op_bind, get, mret, Op_ret; simpl.
  destruct (Auth.findOne email users) as [u|]; [|reflexivity].
  destruct (bcrypt_compare password (Auth.password u)); reflexivity.
Qed.

(** C2. Registering the same email twice, compared without regard to
    case: for every name, password and role that [register] accepts and
    an email that no stored user has, the first call answers 201, and a
    second call under an email with the same lower-casing (whatever its
    other fields) answers the ConflictError, 400 "Email already in use.",
    and leaves the user store as the first call left it. *)
Theorem register_twice_conflict
        (amb amb' : Auth.Ambient) (users : Auth.Users)
        (name email password userType : string)
        (name' email' password' userType' : string) :
  name <> "" -> email <> "" -> password <> "" ->
  userType ∈ Auth.userType_enum ->
  name' <> "" -> email' <> "" -> password' <> "" -> userType' <> "" ->
  JS.toLowerCase email' = JS.toLowerCase email ->
  JS.toLowerCase email ∉ map Auth.email users ->
  Auth.fresh_id amb ∉ map Auth._id users ->
  let first :=
    Auth.register amb
      (Auth.mkRegisterBody (Some name) (Some email) (Some password)
                           (Some userType)) users in
  let second :=
    Auth.register amb'
      (Auth.mkRegisterBody (Some name') (Some email') (Some password')
                           (Some userType')) first.1 in
  first.2 = mkResponse 201 (Auth.Message "User registered successfully.")
  /\ second.2 = Auth.ConflictError
  /\ statusCode second.2 = 400
  /\ second.1 = first.1.
Proof.
  intros Hn He Hp Ht Hn' He' Hp' Ht' Hsame Hnew Hid first second.
  assert (HtNE : userType <> "").
  { intros ->. apply elem_of_cons in Ht as [Ht|Ht]; [discriminate|].
    apply elem_of_cons in Ht as [Ht|Ht]; [discriminate|]. inversion Ht. }
  assert (Hfirst : first =
    ((users ++ [Auth.mkUser (Auth.fresh_id amb) name (JS.toLowerCase email)
                  (bcrypt_hash password (Auth.salt amb)) userType
                  (Auth.now amb)])%list,
     mkResponse 201 (Auth.Message "User registered successfully."))).
  { unfold first. rewrite register_present by assumption.
    rewrite (proj2 (User_findOne_None _ _) Hnew).
    unfold Auth.save, Auth.validate; simpl.
    rewrite !bool_decide_eq_false_2
      by (assumption || apply bcrypt_hash_not_empty
          || apply toLowerCase_not_empty; assumption).
    rewrite (bool_decide_eq_true_2 _ Ht). simpl.
    rewrite !bool_decide_eq_false_2 by assumption. reflexivity. }
  assert (Hsecond : second = (first.1, Auth.ConflictError)).
  { unfold second. rewrite register_present by assumption.
    rewrite Hfirst; simpl. rewrite Hsame.
    erewrite User_findOne_app;
      [reflexivity | apply User_findOne_None; exact Hnew | reflexivity]. }
  rewrite Hsecond, Hfirst. simpl. repeat split; reflexivity.
Qed.

(** A failed login tells nothing about the email, whatever the password
    field holds (even nothing): under a password that is wrong for a stored
    user, the answer is the one an email that no user has would get. *)
Lemma login_failure_reveals_nothing
      (amb amb' : Auth.Ambient) (users : Auth.Users) (u : Auth.User)
      (unknown : string) (password : option string) :
  Auth.reachable users ->
  u ∈ users ->
  bcrypt_compare (JS.field_value password) (Auth.password u) = false ->
  unknown <> "" -> unknown ∉ map Auth.email users ->
  (Auth.login amb (Auth.mkLoginBody (Some (Auth.email u)) password) users).2
  = (Auth.login amb' (Auth.mkLoginBody (Some unknown) password) users).2.
Proof.
  intros Hreach Hin Hcmp Hun Hfree.
  destruct (reachable_well_formed users Hreach) as (_ & Hnd & Hvalid).
  assert (Hue : Auth.email u <> "").
  { rewrite Forall_forall in Hvalid. apply valid_user_has_email, Hvalid, Hin. }
  destruct (JS.falsy password) eqn:Hp.
  - unfold Auth.login. cbn [Auth.lb_email Auth.lb_password].
    rewrite Hp, !orb_true_r. reflexivity.
  - apply falsy_false in Hp as (p & -> & Hp).
    rewrite !login_present by assumption.
    rewrite (User_findOne_stored users u Hnd Hin).
    rewrite (proj2 (User_findOne_None _ _) Hfree).
    simpl in Hcmp. rewrite Hcmp. reflexivity.
Qed.


(** Registrations keep the store reachable, and keep what it holds. *)
Lemma register_all_reachable (reqs : list (Auth.Ambient * Auth.RegisterBody))
      (users : Auth.Users) :
  Auth.reachable users -> Auth.reachable (Auth.register_all reqs users).
Proof.
  revert users. induction reqs as [|[amb req] reqs IH]; intros users Hr;
    [exact Hr|].
  simpl. apply IH. constructor. exact Hr.
Qed.

Lemma register_keeps_users (amb : Auth.Ambient) (req : Auth.RegisterBody)
      (users : Auth.Users) (u : Auth.User) :
  u ∈ users -> u ∈ (Auth.register amb req users).1.
Proof.
  intros Hin. destruct req as [n e p t]. unfold Auth.register; simpl.
  destruct (JS.falsy n || JS.falsy e || JS.falsy p || JS.falsy t);
    [exact Hin|].
  unfold try_catch, mbind, Op_bind, get, mret, Op_ret; simpl.
  destruct (Auth.findOne _ users); [exact Hin|].
  unfold Auth.save.
  repeat (match goal with |- context [if ?b then _ else _] => destruct b end;
          simpl; try exact Hin).
  apply elem_of_app. left. exact Hin.
Qed.

Lemma register_all_keeps_users (reqs : list (Auth.Ambient * Auth.RegisterBody))
      (users : Auth.Users) (u : Auth.User) :
  u ∈ users -> u ∈ Auth.register_all reqs users.
Proof.
  revert users. induction reqs as [|[amb req] reqs IH]; intros users Hin;
    [exact Hin|].
  simpl. apply IH, register_keeps_users, Hin.
Qed.

(** C4. Registration stores the email in lower case and login looks the
    email up as given: when a user has been registered (201) under an
    email with an upper-case letter, then, after any further
    registrations, the user is stored under the lower-cased email and a
    login with the very email string and the password of the registration
    is answered by the AuthError. *)
Theorem login_with_registered_uppercase_email_fails
        (amb amb' : Auth.Ambient) (users : Auth.Users)
        (name email password userType : string)
        (later : list (Auth.Ambient * Auth.RegisterBody)) :
  Auth.reachable users ->
  JS.has_upper email = true ->
  let registered :=
    Auth.register amb
      (Auth.mkRegisterBody (Some name) (Some email) (Some password)
                           (Some userType)) users in
  statusCode registered.2 = 201 ->
  let store := Auth.register_all later registered.1 in
  JS.toLowerCase email ∈ map Auth.email store
  /\ (email ∉ map Auth.email store)
  /\ (Auth.login amb' (Auth.mkLoginBody (Some email) (Some password)) store).2
     = Auth.AuthError.
Proof.
  intros Hreach Hup registered Hst store.
  destruct (register_created amb users _ Hst)
    as (n & e & p & t & Hreq & Hn & He & Hp & Ht & Hstore).
  injection Hreq as <- <- <- <-.
  fold registered in Hstore.
  assert (Hlow : Auth.emails_lowercased store).
  { apply reachable_well_formed, register_all_reachable.
    constructor. exact Hreach. }
  assert (Hnot : email ∉ map Auth.email store).
  { intros Hin. apply list_elem_of_fmap in Hin as (v & Hv & Hvin).
    unfold Auth.emails_lowercased in Hlow. rewrite Forall_forall in Hlow.
    specialize (Hlow v Hvin). rewrite <- Hv in Hlow.
    exact (toLowerCase_moves_upper email Hup Hlow). }
  split; [|split; [exact Hnot|]].
  - apply (list_elem_of_fmap_2 Auth.email _
             (Auth.mkUser (Auth.fresh_id amb) name (JS.toLowerCase email)
                (bcrypt_hash password (Auth.salt amb)) userType (Auth.now amb))).
    apply register_all_keeps_users. rewrite Hstore.
    apply elem_of_app. right. left.
  - rewrite login_present by assumption.
    rewrite (proj2 (User_findOne_None _ _) Hnot). reflexivity.
Qed.

End AuthProperties.

(** The witnesses of the three properties of the auth service, on the
    registration of Alice. *)
Lemma register_twice_conflict_witness :
  let first := Auth.register Examples.amb1 Examples.alice [] in
  let second := Auth.register Examples.amb2 Examples.alice_again first.1 in
  first.2 = mkResponse 201 (Auth.Message "User registered successfully.")
  /\ second.2 = Auth.ConflictError
  /\ statusCode second.2 = 400
  /\ second.1 = first.1.
Proof.
  apply (register_twice_conflict Examples.amb1 Examples.amb2 []
           "Alice" "Alice@Example.com" "hunter2" "student"
           "Al" "ALICE@example.COM" "other" "admin");
    try discriminate; try reflexivity;
    try compute_done.
Defined.


Lemma login_with_registered_uppercase_email_fails_witness :
  let registered := Auth.register Examples.amb1 Examples.alice [] in
  let store :=
    Auth.register_all [(Examples.amb2, Examples.alice_again)] registered.1 in
  JS.toLowerCase "Alice@Example.com" ∈ map Auth.email store
  /\ ("Alice@Example.com" ∉ map Auth.email store)
  /\ (Auth.login Examples.amb2
        (Auth.mkLoginBody (Some "Alice@Example.com") (Some "hunter2"))
        store).2 = Auth.AuthError.
Proof.
  apply (login_with_registered_uppercase_email_fails Examples.amb1 Examples.amb2
           [] "Alice" "Alice@Example.com" "hunter2" "student"
           [(Examples.amb2, Examples.alice_again)]);
    [exact Auth.reachable_empty | reflexivity | reflexivity].
Defined.

(** ** Student profile store *)

(** Running a handler: the monad operations unfolded. *)
Ltac run :=
  unfold try_catch, mbind, Op_bind, mret, Op_ret, get, throw; simpl.

(** C5 (as amended). For every profile submission whose serialized
    [marks10] is no JSON text, [submitDetails] fails and persists nothing:
    the student store is unchanged.  The failure is the answer of the
    handler's [catch] block, 500 "Failed to save student details", and not
    the 400 of a ValidationError. *)
Theorem submitDetails_malformed_marks10
        (fresh_id : ObjectId) (req : StudentProfile.Request)
        (students : StudentProfile.Students) :
  JS.JSON_parse_field (StudentProfile.b_marks10 (StudentProfile.req_body req))
  = None ->
  StudentProfile.submitDetails fresh_id req students
  = (students,
     mkResponse 500 (StudentProfile.Message "Failed to save student details")).
Proof.
  intros Hparse. unfold StudentProfile.submitDetails, StudentProfile.parse.
  run. destruct (StudentProfile.req_files req); [|reflexivity].
  rewrite Hparse. reflexivity.
Qed.

Lemma submitDetails_malformed_marks10_witness :
  StudentProfile.submitDetails 1 Examples.malformed_marks10 []
  = ([], mkResponse 500 (StudentProfile.Message "Failed to save student details")).
Proof.
  apply (submitDetails_malformed_marks10 1 Examples.malformed_marks10 []).
  vm_compute. reflexivity.
Defined.

(** C5 as stated fails: the submission of [Examples.malformed_marks10],
    whose [marks10] is the text [{math: 90}], is answered with status 500,
    which is not the status of a ValidationError. *)
Lemma submitDetails_malformed_marks10_is_not_400 :
  JS.JSON_parse_field
    (StudentProfile.b_marks10 (StudentProfile.req_body Examples.malformed_marks10))
  = None
  /\ statusCode (StudentProfile.submitDetails 1 Examples.malformed_marks10 []).2 = 500
  /\ statusCode (StudentProfile.submitDetails 1 Examples.malformed_marks10 []).2
     <> StudentProfile.ValidationError_status.
Proof. vm_compute. repeat split; congruence. Qed.

(** A submission whose four encoded fields are JSON is saved: the decoded
    values are stored and the answer is 201. *)
Lemma submitDetails_wellformed_is_saved :
  StudentProfile.submitDetails 1 Examples.wellformed_marks10 []
  = ([StudentProfile.mkStudent 1 "alice@example.com" (Some "Pune")
        (Some "411001")
        (JS.JObject [("math", JS.JString "90")]) (JS.JBool true)
        (JS.JObject []) (JS.JObject [])
        None None None (Some "/uploads/1700000000000.png") None],
     mkResponse 201 (StudentProfile.Message "Student details saved successfully")).
Proof. vm_compute. reflexivity. Qed.

(** ** College-admin workflow *)

Section CollectionFacts.
Context {Doc : Type}.
Implicit Types (filter : Doc -> bool) (docs : list Doc).

Lemma findOne_None filter docs :
  Collection.findOne filter docs = None <->
  forall d, d ∈ docs -> filter d = false.
Proof.
  unfold Collection.findOne. induction docs as [|x docs IH]; simpl.
  - split; [intros _ d Hd; inversion Hd | reflexivity].
  - destruct (filter x) eqn:Hx.
    + split; [discriminate|]. intros Hall.
      rewrite (Hall x) in Hx by left. discriminate.
    + rewrite IH. split.
      * intros Hall d Hd. apply elem_of_cons in Hd as [->|Hd]; auto.
      * intros Hall d Hd. apply Hall. right. exact Hd.
Qed.

Lemma findOne_Some filter docs d :
  Collection.findOne filter docs = Some d -> d ∈ docs /\ filter d = true.
Proof.
  unfold Collection.findOne. induction docs as [|x docs IH]; simpl;
    [discriminate|].
  destruct (filter x) eqn:Hx.
  - intros [= ->]. split; [left | exact Hx].
  - intros Hf. destruct (IH Hf). split; [right|]; assumption.
Qed.

Lemma deleteOne_no_match filter docs :
  (forall d, d ∈ docs -> filter d = false) ->
  Collection.deleteOne filter docs = docs.
Proof.
  induction docs as [|x docs IH]; simpl; [reflexivity|]. intros Hall.
  rewrite (Hall x) by left. f_equal. apply IH. intros d Hd.
  apply Hall. right. exact Hd.
Qed.

Lemma deleteOne_subset filter docs d :
  d ∈ Collection.deleteOne filter docs -> d ∈ docs.
Proof.
  induction docs as [|x docs IH]; simpl; [auto|].
  destruct (filter x); [right; assumption|].
  intros Hd. apply elem_of_cons in Hd as [->|Hd]; [left | right; auto].
Qed.

Lemma updateOne_no_match filter (f : Doc -> Doc) docs :
  (forall d, d ∈ docs -> filter d = false) ->
  Collection.updateOne filter f docs = docs.
Proof.
  induction docs as [|x docs IH]; simpl; [reflexivity|]. intros Hall.
  rewrite (Hall x) by left. f_equal. apply IH. intros d Hd.
  apply Hall. right. exact Hd.
Qed.

End CollectionFacts.

Section CollegeAdminProperties.
Import CollegeAdminWorkflow.

Lemma CollegeAdmin_has_id_false (id : ObjectId) (docs : list CollegeAdmin) :
  ~ present id docs -> forall d, d ∈ docs -> has_id id d = false.
Proof.
  intros Hno d Hd. unfold has_id. apply bool_decide_eq_false_2. intros <-.
  apply Hno. unfold present. apply list_elem_of_fmap_2. exact Hd.
Qed.

(** Deleting by id removes the id from a collection that holds it once. *)
Lemma CollegeAdmin_deleteOne_removes (id : ObjectId) (docs : list CollegeAdmin) :
  NoDup (map _id docs) ->
  ~ present id (Collection.deleteOne (has_id id) docs).
Proof.
  unfold present. induction docs as [|x docs IH]; simpl.
  - intros _. apply not_elem_of_nil.
  - intros Hnd. apply NoDup_cons in Hnd as [Hx Hnd]. unfold has_id at 1.
    case_bool_decide as Heq.
    + rewrite <- Heq. exact Hx.
    + simpl. rewrite not_elem_of_cons. split; [congruence | exact (IH Hnd)].
Qed.

Lemma CollegeAdmin_deleteOne_present (id j : ObjectId) (docs : list CollegeAdmin) :
  present j (Collection.deleteOne (has_id id) docs) -> present j docs.
Proof.
  unfold present. intros Hj. apply list_elem_of_fmap in Hj as (d & -> & Hd).
  apply list_elem_of_fmap_2. exact (deleteOne_subset _ _ _ Hd).
Qed.

(** The body made of a valid stored request builds that very document. *)
Lemma document_body_of (d : CollegeAdmin) :
  valid d -> document (_id d) (a_fields (body_of d)) = Some d.
Proof.
  intros (He & Hl & Hp & Hu & Hn & Hw). unfold document. simpl a_fields.
  cbn [f_email f_location f_pincode f_universityAffiliation f_naacCertPhoto
       f_website f_noOfBranches f_branches].
  rewrite !falsy_Some by assumption. simpl. destruct d; reflexivity.
Qed.

(** What the two handlers do, whatever the request. *)
Lemma approveCollegeAdmin_run (admin : AdminBody) (st : Store) :
  approveCollegeAdmin admin st
  = match insert (a_id admin) (a_fields admin) (approved st) with
    | Returns docs =>
        (mkStore (Collection.deleteOne (has_id (a_id admin)) (pending st)) docs,
         mkResponse 200 (Text "College Admin approved"))
    | Throws _ => (st, mkResponse 500 (Text "Failed to approve college admin"))
    end.
Proof.
  unfold approveCollegeAdmin, ApprovedCollegeAdmin_create,
    CollegeAdmin_findByIdAndDelete. run.
  destruct (insert _ _ _); reflexivity.
Qed.

Lemma disapproveCollegeAdmin_run (id : ObjectId) (st : Store) :
  disapproveCollegeAdmin id st
  = (mkStore (Collection.deleteOne (has_id id) (pending st)) (approved st),
     mkResponse 200 (Text "College Admin disapproved")).
Proof. reflexivity. Qed.

(** The last observable state of an approval is the state the handler
    leaves. *)
Lemma approve_points_last (admin : AdminBody) (st : Store) :
  last (approve_points admin st) = Some (approveCollegeAdmin admin st).1.
Proof.
  rewrite approveCollegeAdmin_run.
  unfold approve_points, ApprovedCollegeAdmin_create,
    CollegeAdmin_findByIdAndDelete.
  destruct (insert _ _ _); reflexivity.
Qed.

(** The requests that [collegeAdminData] stores are valid and have
    distinct ids. *)
Lemma document_valid (id : ObjectId) (f : Fields) (d : CollegeAdmin) :
  document id f = Some d -> valid d /\ _id d = id.
Proof.
  unfold document.
  destruct (JS.falsy (f_email f)) eqn:H1; [discriminate|].
  destruct (JS.falsy (f_location f)) eqn:H2; [discriminate|].
  destruct (JS.falsy (f_pincode f)) eqn:H3; [discriminate|].
  destruct (JS.falsy (f_universityAffiliation f)) eqn:H4; [discriminate|].
  destruct (JS.falsy (f_naacCertPhoto f)) eqn:H5; [discriminate|].
  destruct (JS.falsy (f_website f)) eqn:H6; [discriminate|].
  apply falsy_false in H1 as (? & -> & ?), H2 as (? & -> & ?),
    H3 as (? & -> & ?), H4 as (? & -> & ?), H5 as (? & -> & ?),
    H6 as (? & -> & ?).
  simpl. destruct (f_noOfBranches f); simpl; [|discriminate].
  intros [= <-]. unfold valid. simpl. tauto.
Qed.

Lemma collegeAdminData_keeps_pending_wellformed
      (fresh_id : ObjectId) (f : Fields) (st : Store) :
  Forall valid (pending st) /\ NoDup (map _id (pending st)) ->
  let st' := (collegeAdminData fresh_id f st).1 in
  Forall valid (pending st') /\ NoDup (map _id (pending st'))
  /\ approved st' = approved st.
Proof.
  intros [Hvalid Hnd]. unfold collegeAdminData, CollegeAdmin_save. run.
  destruct (_ || _); simpl; [tauto|]. unfold insert.
  destruct (document fresh_id f) as [d|] eqn:Hdoc; simpl; [|tauto].
  case_bool_decide as Hfree; simpl; [tauto|].
  destruct (document_valid _ _ _ Hdoc) as [Hd Hid].
  split; [|split; [|reflexivity]].
  - apply Forall_app. split; [exact Hvalid|].
    apply Forall_cons. split; [exact Hd | apply Forall_nil_2].
  - rewrite map_app. apply NoDup_app. split; [exact Hnd|]. split.
    + intros x Hx Hin. simpl in Hin. apply list_elem_of_singleton in Hin.
      subst x. rewrite Hid in Hx. exact (Hfree Hx).
    + apply NoDup_singleton.
Qed.

(** C1 (as amended). For every pending college-admin request [r], in a
    store whose pending requests are valid and have distinct ids and where
    no request is in both collections, [approve] of the record first copies
    it into the approved collection and then deletes the pending record by
    id.  Afterwards the record is absent from the pending collection and
    present, field for field, in the approved collection, and again no
    request is in both collections.  Between the copy and the delete the
    approved request is in both. *)
Theorem approve_moves_request (st : Store) (r : CollegeAdmin) :
  Forall valid (pending st) ->
  NoDup (map _id (pending st)) ->
  at_most_one st ->
  r ∈ pending st ->
  let copied := mkStore (pending st) (approved st ++ [r])%list in
  let final :=
    mkStore (Collection.deleteOne (has_id (_id r)) (pending st))
            (approved st ++ [r])%list in
  approveCollegeAdmin (body_of r) st
  = (final, mkResponse 200 (Text "College Admin approved"))
  /\ approve_points (body_of r) st = [st; copied; final]
  /\ ~ present (_id r) (pending final)
  /\ r ∈ approved final
  /\ at_most_one final
  /\ (present (_id r) (pending copied) /\ present (_id r) (approved copied)).
Proof.
  intros Hvalid Hnd Hone Hr copied final.
  assert (Hrp : present (_id r) (pending st))
    by (apply list_elem_of_fmap_2; exact Hr).
  assert (Hfree : _id r ∉ map _id (approved st))
    by (intros Hin; exact (Hone (_id r) (conj Hrp Hin))).
  assert (Hins : insert (a_id (body_of r)) (a_fields (body_of r)) (approved st)
                 = Returns (approved st ++ [r])%list).
  { unfold insert. simpl a_id. rewrite document_body_of.
    - rewrite bool_decide_eq_false_2 by exact Hfree. reflexivity.
    - rewrite Forall_forall in Hvalid. exact (Hvalid r Hr). }
  split; [|split; [|split; [|split; [|split; [|split]]]]].
  - rewrite approveCollegeAdmin_run, Hins. reflexivity.
  - unfold approve_points, ApprovedCollegeAdmin_create,
      CollegeAdmin_findByIdAndDelete. rewrite Hins. reflexivity.
  - simpl. apply CollegeAdmin_deleteOne_removes. exact Hnd.
  - simpl. apply elem_of_app. right. left.
  - intros j [Hjp Hja]. simpl in Hjp, Hja.
    assert (Hjp' := CollegeAdmin_deleteOne_present _ _ _ Hjp).
    unfold present in Hja. rewrite map_app in Hja.
    apply elem_of_app in Hja as [Hja|Hja].
    + exact (Hone j (conj Hjp' Hja)).
    + simpl in Hja. apply list_elem_of_singleton in Hja as ->.
      exact (CollegeAdmin_deleteOne_removes (_id r) (pending st) Hnd Hjp).
  - exact Hrp.
  - unfold present. simpl. rewrite map_app. apply elem_of_app. right. left.
Qed.


End CollegeAdminProperties.

Lemma approve_moves_request_witness :
  let r := Examples.request7 in
  let st := Examples.one_pending in
  let copied := CollegeAdminWorkflow.mkStore [r] [r] in
  let final := CollegeAdminWorkflow.mkStore [] [r] in
  CollegeAdminWorkflow.approveCollegeAdmin (CollegeAdminWorkflow.body_of r) st
  = (final, mkResponse 200 (CollegeAdminWorkflow.Text "College Admin approved"))
  /\ CollegeAdminWorkflow.approve_points (CollegeAdminWorkflow.body_of r) st
     = [st; copied; final]
  /\ ~ CollegeAdminWorkflow.present 7 []
  /\ r ∈ [r]
  /\ CollegeAdminWorkflow.at_most_one final
  /\ (CollegeAdminWorkflow.present 7 [r] /\ CollegeAdminWorkflow.present 7 [r]).
Proof.
  apply (approve_moves_request Examples.one_pending Examples.request7).
  - repeat constructor; discriminate.
  - compute_done.
  - intros id [_ Hin]. inversion Hin.
  - compute_done.
Defined.

(** C1 as stated fails: while the pending request [Examples.request7] is
    approved, the state after the copy holds it in both collections, so
    that not every observable state keeps a request in at most one of
    them. *)
Lemma approve_passes_through_both_collections :
  Examples.request7 ∈ CollegeAdminWorkflow.pending Examples.one_pending
  /\ CollegeAdminWorkflow.at_most_one Examples.one_pending
  /\ ~ Forall CollegeAdminWorkflow.at_most_one
         (CollegeAdminWorkflow.approve_points
            (CollegeAdminWorkflow.body_of Examples.request7)
            Examples.one_pending).
Proof.
  split; [compute_done|]. split.
  - intros id [_ Hin]. inversion Hin.
  - intros Hall. apply Forall_cons in Hall as [_ Hall].
    apply Forall_cons in Hall as [Hcopied _].
    apply (Hcopied 7%nat).
    split; unfold CollegeAdminWorkflow.present; compute_done.
Qed.



(** ** Placement data workflow *)

Section PlacementProperties.
Import Placement.
Context `{CsvDecoder}.


(** What [approve_placement] does to an id. *)
Lemma approve_placement_run (id : ObjectId) (st : Store) :
  approve_placement (Some id) st
  = match Collection.findOne (has_id id) (records st) with
    | Some d =>
        (mkStore (Collection.updateOne (has_id id) set_approved (records st))
                 (disk st),
         mkResponse 200 (Approved "Placement approved successfully"
                                  (set_approved d)))
    | None => (st, mkResponse 404 (Message "Placement not found"))
    end.
Proof.
  unfold approve_placement, findByIdAndUpdate_approved. run.
  destruct (Collection.findOne (has_id id) (records st)) eqn:Hf; simpl;
    [reflexivity|].
  rewrite updateOne_no_match by (apply findOne_None; exact Hf).
  destruct st; reflexivity.
Qed.

(** An entry of the pending list comes from a record of the list. *)
Lemma pending_entries_id (disk : gmap string string)
      (docs : list PlacementData) (id : ObjectId) :
  id ∈ map pe_id (pending_entries disk docs) ->
  exists d, d ∈ docs /\ _id d = id.
Proof.
  induction docs as [|x docs IH]; simpl; [intros Hin; inversion Hin|].
  destruct (disk !! fileUrl x).
  - simpl. intros Hin. apply elem_of_cons in Hin as [->|Hin].
    + exists x. split; [left | reflexivity].
    + destruct (IH Hin) as (d & Hd & Hid). exists d. split; [right|]; assumption.
  - intros Hin. destruct (IH Hin) as (d & Hd & Hid).
    exists d. split; [right|]; assumption.
Qed.

(** A record whose file is on the disk has its entry in the approved
    list. *)
Lemma approved_entries_elem (disk : gmap string string)
      (docs : list PlacementData) (d : PlacementData) (file : string) :
  d ∈ docs -> disk !! fileUrl d = Some file ->
  mkApprovedEntry (collegeName d) (year d) (csvParser file)
  ∈ approved_entries disk docs.
Proof.
  intros Hd Hfile. induction docs as [|x docs IH]; [inversion Hd|].
  simpl. apply elem_of_cons in Hd as [<-|Hd].
  - rewrite Hfile. left.
  - destruct (disk !! fileUrl x); [right|]; exact (IH Hd).
Qed.

(** The loop of the approved list makes one entry for each record whose
    file is on the disk, and none for the others. *)
Lemma approved_entries_omap (disk : gmap string string)
      (docs : list PlacementData) :
  approved_entries disk docs
  = omap (fun d => file ← disk !! fileUrl d;
                   Some (mkApprovedEntry (collegeName d) (year d)
                                         (csvParser file)))
         docs.
Proof.
  induction docs as [|x docs IH]; simpl; [reflexivity|].
  destruct (disk !! fileUrl x); simpl; rewrite IH; reflexivity.
Qed.

Lemma parseInt_not_empty (s : string) (y : Z) :
  JS.parseInt s = Some y -> s <> "".
Proof. intros Hp ->. discriminate. Qed.

(** What [get_approved_placement_data] does to a query with both filters
    and a year that reads as an integer. *)
Lemma get_approved_placement_data_run
      (c ys : string) (y : Z) (st : Store) :
  c <> "" -> JS.parseInt ys = Some y ->
  get_approved_placement_data (mkQuery (Some c) (Some ys)) st
  = (st,
     match matching c y st with
     | [] => mkResponse 404
               (Message "No approved placements found for the specified college and year")
     | _ :: _ => mkResponse 200
                   (ApprovedList (approved_entries (disk st) (matching c y st)))
     end).
Proof.
  intros Hc Hy. unfold get_approved_placement_data, find_approved.
  cbn [q_collegeName q_year].
  rewrite !falsy_Some by (assumption || exact (parseInt_not_empty ys y Hy)).
  change (JS.field_value (Some ys)) with ys.
  change (JS.field_value (Some c)) with c.
  cbn [orb]. unfold try_catch, mbind, Op_bind. rewrite Hy. run.
  fold (matching c y st). destruct (matching c y st); reflexivity.
Qed.

(** An upload that is answered with 201 has put the file on the disk
    under the path that the new record refers to; the record is pending
    and carries a college name. *)
Lemma upload_stores_file (fresh_id : ObjectId) (req : UploadRequest)
      (st : Store) :
  statusCode (upload fresh_id req st).2 = 201 ->
  exists f d,
    u_file req = Some f
    /\ records (upload fresh_id req st).1 = (records st ++ [d])%list
    /\ _id d = fresh_id /\ approved d = false /\ collegeName d <> ""
    /\ disk (upload fresh_id req st).1 !! fileUrl d = Some (contents f).
Proof.
  unfold upload, multer_single.
  destruct (u_file req) as [f|]; [|run; discriminate].
  destruct (JS.falsy (u_collegeName req)) eqn:Hc; [run; discriminate|].
  destruct (JS.falsy (u_year req)) eqn:Hy; [run; discriminate|].
  apply falsy_false in Hc as (c & -> & Hc), Hy as (ys & -> & Hys).
  unfold save. run.
  destruct (JS.parseInt ys) as [y|]; [|simpl; discriminate].
  rewrite (bool_decide_eq_false_2 _ Hc). simpl.
  destruct (_ || _); [simpl; discriminate|].
  case_bool_decide; [simpl; discriminate|]. simpl. intros _.
  eexists f, _. split; [reflexivity|]. split; [reflexivity|].
  simpl. repeat split; [exact Hc|]. apply lookup_insert_eq.
Qed.


(** C8 (as amended). [queryApproved] answers with the ValidationError
    (400) when either filter is missing and, for a year that reads as an
    integer, with the NotFoundError (404) when no approved record matches
    both filters; otherwise it answers 200 with one entry, holding the
    college name, the year and the decoded contents, for each matching
    record whose file is on the disk, and with none for a matching record
    whose file is missing.  The store is only read. *)
Theorem queryApproved_outcomes (st : Store) (q : Query) :
  (JS.falsy (q_collegeName q) || JS.falsy (q_year q) = true ->
   get_approved_placement_data q st
   = (st, mkResponse 400 (Message "College name and year are required")))
  /\ (forall (c ys : string) (y : Z),
        q = mkQuery (Some c) (Some ys) -> c <> "" -> JS.parseInt ys = Some y ->
        (matching c y st = [] ->
         get_approved_placement_data q st
         = (st, mkResponse 404
                  (Message "No approved placements found for the specified college and year")))
        /\ (matching c y st <> [] ->
            get_approved_placement_data q st
            = (st, mkResponse 200
                     (ApprovedList
                        (omap (fun d =>
                                 file ← disk st !! fileUrl d;
                                 Some (mkApprovedEntry (collegeName d) (year d)
                                                       (csvParser file)))
                              (matching c y st)))))).
Proof.
  split.
  - intros Hmiss. unfold get_approved_placement_data. rewrite Hmiss. reflexivity.
  - intros c ys y -> Hc Hy.
    rewrite (get_approved_placement_data_run c ys y st Hc Hy).
    rewrite <- approved_entries_omap.
    destruct (matching c y st); split; intros Hm; congruence.
Qed.

End PlacementProperties.



Lemma queryApproved_outcomes_witness :
  Placement.get_approved_placement_data Examples.mit_2023
    Examples.approved_file_lost
  = (Examples.approved_file_lost, mkResponse 200 (Placement.ApprovedList [])).
Proof.
  refine (proj2 (proj2 (queryApproved_outcomes Examples.approved_file_lost
                          Examples.mit_2023)
                   "MIT" "2023" 2023 eq_refl _ eq_refl) _);
    first [discriminate | compute_done].
Defined.

(** C8 as stated fails: in [Examples.approved_file_lost] one approved
    record matches the college name and the year, so that the filtered set
    is not empty, and the answer holds no entry, since the file of the
    record is missing. *)
Lemma queryApproved_skips_record_with_lost_file :
  Placement.matching "MIT" 2023 Examples.approved_file_lost
  = [Placement.set_approved Examples.placement1]
  /\ (Placement.get_approved_placement_data Examples.mit_2023
        Examples.approved_file_lost).2
     = mkResponse 200 (Placement.ApprovedList [])
  /\ length (Placement.listed_entries
               (body (Placement.get_approved_placement_data Examples.mit_2023
                        Examples.approved_file_lost).2))
     <> length (Placement.matching "MIT" 2023 Examples.approved_file_lost).
Proof. repeat split. vm_compute. lia. Qed.

(** ** Transaction ledger *)

Section LedgerProperties.
Import Ledger.

Lemma findOne_updateOne {Doc} (filter : Doc -> bool) (f : Doc -> Doc)
      (docs : list Doc) (d : Doc) :
  (forall x, filter x = true -> filter (f x) = true) ->
  Collection.findOne filter docs = Some d ->
  Collection.findOne filter (Collection.updateOne filter f docs) = Some (f d).
Proof.
  intros Hkeep. unfold Collection.findOne.
  induction docs as [|x docs IH]; simpl; [discriminate|].
  destruct (filter x) eqn:Hx; simpl.
  - intros [= ->]. rewrite (Hkeep d Hx). reflexivity.
  - rewrite Hx. exact IH.
Qed.

(** The transactions before the first match are untouched by the update. *)
Lemma updateOne_length {Doc} (filter : Doc -> bool) (f : Doc -> Doc)
      (docs : list Doc) :
  length (Collection.updateOne filter f docs) = length docs.
Proof.
  induction docs as [|x docs IH]; simpl; [reflexivity|].
  destruct (filter x); simpl; congruence.
Qed.

(** What [payment_status] does. *)
Lemma payment_status_run (amb : Ambient) (o s : string) (txs : Transactions) :
  fresh_id amb ∉ map _id txs ->
  payment_status amb o s txs
  = match Collection.findOne (has_orderId o) txs with
    | Some d =>
        (Collection.updateOne (has_orderId o) (set_status s) txs,
         mkResponse 200 (Document (set_status s d)))
    | None =>
        let doc := mkTransaction (fresh_id amb) None (Some o) None s (now amb) in
        ((txs ++ [doc])%list, mkResponse 200 (Document doc))
    end.
Proof.
  intros Hfresh. unfold payment_status, findOneAndUpdate_upsert. run.
  destruct (Collection.findOne (has_orderId o) txs); [reflexivity|].
  cbn [_id]. rewrite bool_decide_eq_false_2 by exact Hfresh. reflexivity.
Qed.

(** C7. For every order id and status string, [updateStatus] upserts by
    order id: when a transaction has the order id, the first such
    transaction gets the status (and is returned); when none has it, a
    ledger record with that order id and that status is created and
    returned.  The answer is 200 in both cases, never the NotFoundError,
    and no status string is refused.  (The object id that the database
    draws for the insert is not in use.) *)
Theorem updateStatus_upserts (amb : Ambient) (o s : string) (txs : Transactions) :
  fresh_id amb ∉ map _id txs ->
  let run := payment_status amb o s txs in
  statusCode run.2 = 200
  /\ match Collection.findOne (has_orderId o) txs with
     | Some d =>
         run = (Collection.updateOne (has_orderId o) (set_status s) txs,
                mkResponse 200 (Document (set_status s d)))
         /\ Collection.findOne (has_orderId o) run.1 = Some (set_status s d)
         /\ orderId (set_status s d) = Some o
         /\ status (set_status s d) = s
         /\ length run.1 = length txs
     | None =>
         exists doc,
           run = ((txs ++ [doc])%list, mkResponse 200 (Document doc))
           /\ orderId doc = Some o
           /\ Ledger.status doc = s
     end.
Proof.
  intros Hfresh run. unfold run. rewrite payment_status_run by exact Hfresh.
  destruct (Collection.findOne (has_orderId o) txs) as [d|] eqn:Hf.
  - destruct (findOne_Some _ _ _ Hf) as [_ Hd].
    apply bool_decide_eq_true_1 in Hd.
    split; [reflexivity|]. split; [reflexivity|]. split.
    + apply findOne_updateOne; [|exact Hf]. intros x Hx. exact Hx.
    + split; [exact Hd|]. split; [reflexivity|]. apply updateOne_length.
  - split; [reflexivity|]. eexists. split; [reflexivity|]. split; reflexivity.
Qed.

(** C10. When [updateStatus] inserts (no transaction has the order id),
    the created ledger record holds the given order id, the given status
    and the timestamp of the insertion, and neither an email nor an amount;
    a record created by [record(email, orderId, amount)] holds the email
    and the amount it was given, with the default status. *)
Theorem upsert_insert_omits_email_and_amount
        (amb : Ambient) (o s : string) (txs : Transactions) :
  Collection.findOne (has_orderId o) txs = None ->
  fresh_id amb ∉ map _id txs ->
  let created := mkTransaction (fresh_id amb) None (Some o) None s (now amb) in
  payment_status amb o s txs
  = ((txs ++ [created])%list, mkResponse 200 (Document created))
  /\ orderId created = Some o /\ Ledger.status created = s
  /\ timestamp created = now amb
  /\ email created = None /\ amount created = None
  /\ forall (e : string) (a : Z),
       let recorded :=
         mkTransaction (fresh_id amb) (Some e) (Some o) (Some a)
                       "pending" (now amb) in
       transactions amb (mkTransactionBody (Some e) (Some o) (Some a)) txs
       = ((txs ++ [recorded])%list, mkResponse 201 (Document recorded))
       /\ email recorded = Some e /\ amount recorded = Some a.
Proof.
  intros Hnone Hfresh created.
  split; [rewrite payment_status_run by exact Hfresh; rewrite Hnone; reflexivity|].
  repeat (split; [reflexivity|]).
  intros e a recorded. split; [|split; reflexivity].
  unfold transactions, save. run.
  cbn [_id]. rewrite bool_decide_eq_false_2 by exact Hfresh. reflexivity.
Qed.

End LedgerProperties.

Lemma updateStatus_upserts_witness :
  let run := Ledger.payment_status Examples.ledger_amb "order_1" "refunded?"
               [Examples.paid_order] in
  statusCode run.2 = 200
  /\ run = ([Ledger.set_status "refunded?" Examples.paid_order],
            mkResponse 200
              (Ledger.Document (Ledger.set_status "refunded?" Examples.paid_order)))
     /\ Collection.findOne (Ledger.has_orderId "order_1") run.1
        = Some (Ledger.set_status "refunded?" Examples.paid_order)
     /\ Ledger.orderId (Ledger.set_status "refunded?" Examples.paid_order)
        = Some "order_1"
     /\ Ledger.status (Ledger.set_status "refunded?" Examples.paid_order)
        = "refunded?"
     /\ length run.1 = 1%nat.
Proof.
  apply (updateStatus_upserts Examples.ledger_amb "order_1" "refunded?"
           [Examples.paid_order]).
  compute_done.
Defined.

Lemma upsert_insert_omits_email_and_amount_witness :
  let created :=
    Ledger.mkTransaction 5 None (Some "order_2") None "paid" 1700000000000 in
  Ledger.payment_status Examples.ledger_amb "order_2" "paid" [Examples.paid_order]
  = ([Examples.paid_order; created], mkResponse 200 (Ledger.Document created)).
Proof.
  apply (upsert_insert_omits_email_and_amount Examples.ledger_amb
           "order_2" "paid" [Examples.paid_order]);
    [reflexivity | compute_done].
Defined.


(* ===================================================================== *)
(** * Further properties of the handlers *)

(** ** Auth service *)

Section AuthFurther.
Context `{Crypto}.

(** X1. The four answers of [register].  A request that lacks a field is
    answered 400 "All fields are required."; otherwise an email that is
    stored already, compared in lower case, is answered 400 "Email already
    in use."; otherwise a role outside the enum of the schema, or an object
    id that is taken, is answered 500 "Server error."; otherwise the user
    is appended, under the lower-cased email and with the hashed password,
    and the answer is 201.  Unless the answer is 201 the store is as it
    was. *)
Theorem register_outcomes (amb : Auth.Ambient) (req : Auth.RegisterBody)
        (users : Auth.Users) :
  let run := Auth.register amb req users in
  let missing :=
    JS.falsy (Auth.rb_name req) || JS.falsy (Auth.rb_email req)
    || JS.falsy (Auth.rb_password req) || JS.falsy (Auth.rb_userType req) in
  let email := JS.toLowerCase (JS.field_value (Auth.rb_email req)) in
  let userType := JS.field_value (Auth.rb_userType req) in
  (missing = true ->
   run = (users, mkResponse 400 (Auth.Message "All fields are required.")))
  /\ (missing = false -> email ∈ map Auth.email users ->
      run = (users, Auth.ConflictError))
  /\ (missing = false -> email ∉ map Auth.email users ->
      userType ∉ Auth.userType_enum \/ Auth.fresh_id amb ∈ map Auth._id users ->
      run = (users, mkResponse 500 (Auth.Message "Server error.")))
  /\ (missing = false -> email ∉ map Auth.email users ->
      userType ∈ Auth.userType_enum -> Auth.fresh_id amb ∉ map Auth._id users ->
      run = ((users ++
                [Auth.mkUser (Auth.fresh_id amb)
                   (JS.field_value (Auth.rb_name req)) email
                   (bcrypt_hash (JS.field_value (Auth.rb_password req))
                                (Auth.salt amb))
                   userType (Auth.now amb)])%list,
             mkResponse 201 (Auth.Message "User registered successfully.")))
  /\ (statusCode run.2 <> 201 -> run.1 = users).
Proof.
  intros run missing email userType. subst missing email userType.
  destruct req as [n e p t]. cbn [Auth.rb_name Auth.rb_email Auth.rb_password
                                  Auth.rb_userType] in *.
  destruct (JS.falsy n || JS.falsy e || JS.falsy p || JS.falsy t) eqn:Hmiss.
  { assert (Hrun : run = (users, mkResponse 400
                                   (Auth.Message "All fields are required."))).
    { unfold run, Auth.register.
      cbn [Auth.rb_name Auth.rb_email Auth.rb_password Auth.rb_userType].
      rewrite Hmiss. reflexivity. }
    rewrite Hrun.
    repeat split; intros; try reflexivity; discriminate. }
  apply orb_false_iff in Hmiss as [Hmiss Ht].
  apply orb_false_iff in Hmiss as [Hmiss Hp].
  apply orb_false_iff in Hmiss as [Hn He].
  apply falsy_false in Hn as (name & -> & Hn), He as (em & -> & He),
    Hp as (pw & -> & Hp), Ht as (ut & -> & Ht).
  assert (Hrun := register_present amb users name em pw ut Hn He Hp Ht).
  fold run in Hrun.
  change (JS.field_value (Some em)) with em.
  change (JS.field_value (Some ut)) with ut.
  change (JS.field_value (Some name)) with name.
  change (JS.field_value (Some pw)) with pw.
  destruct (Auth.findOne (JS.toLowerCase em) users) as [u|] eqn:Hfind.
  { assert (Hin : JS.toLowerCase em ∈ map Auth.email users).
    { destruct (decide (JS.toLowerCase em ∈ map Auth.email users)) as [|Hno];
        [assumption|].
      apply User_findOne_None in Hno. congruence. }
    rewrite Hrun.
    repeat split; intros; try reflexivity; try discriminate; contradiction. }
  apply User_findOne_None in Hfind.
  unfold Auth.save, Auth.validate in Hrun. simpl in Hrun.
  rewrite !bool_decide_eq_false_2 in Hrun
    by (assumption || apply bcrypt_hash_not_empty
        || apply toLowerCase_not_empty; assumption).
  simpl in Hrun.
  destruct (decide (ut ∈ Auth.userType_enum)) as [Hrole|Hrole].
  - rewrite (bool_decide_eq_true_2 _ Hrole) in Hrun. simpl in Hrun.
    destruct (decide (Auth.fresh_id amb ∈ map Auth._id users)) as [Hid|Hid].
    + rewrite (bool_decide_eq_true_2 _ Hid) in Hrun. rewrite Hrun.
      repeat split; intros; try reflexivity; try discriminate; contradiction.
    + rewrite (bool_decide_eq_false_2 _ Hid) in Hrun.
      rewrite (bool_decide_eq_false_2 _ Hfind) in Hrun. rewrite Hrun.
      repeat split; intros; try reflexivity; try discriminate;
        try contradiction; try tauto.
  - rewrite (bool_decide_eq_false_2 _ Hrole) in Hrun. simpl in Hrun.
    rewrite Hrun.
    repeat split; intros; try reflexivity; try discriminate; contradiction.
Qed.

(** X2. No two stored users have emails that are equal up to case: in
    every store that registrations can build, two positions that hold
    emails with the same lower-casing are the same position. *)
Theorem stored_emails_differ_beyond_case (users : Auth.Users) :
  Auth.reachable users ->
  forall (i j : nat) (u v : Auth.User),
    users !! i = Some u -> users !! j = Some v ->
    JS.toLowerCase (Auth.email u) = JS.toLowerCase (Auth.email v) ->
    i = j.
Proof.
  intros Hreach i j u v Hi Hj Hsame.
  destruct (reachable_well_formed users Hreach) as (Hlow & Hnd & _).
  unfold Auth.emails_lowercased in Hlow. rewrite Forall_forall in Hlow.
  rewrite (Hlow u), (Hlow v) in Hsame
    by (eapply list_elem_of_lookup_2; eassumption).
  change (map Auth.email users) with (Auth.email <$> users) in Hnd.
  apply (proj1 (NoDup_alt _) Hnd i j (Auth.email u));
    rewrite list_lookup_fmap;
    [exact (f_equal (fmap Auth.email) Hi) | ];
    rewrite Hsame; exact (f_equal (fmap Auth.email) Hj).
Qed.

(** [login] only reads the user store. *)
Lemma login_reads_only (amb : Auth.Ambient) (req : Auth.LoginBody)
      (users : Auth.Users) :
  (Auth.login amb req users).1 = users.
Proof.
  unfold Auth.login.
  destruct (JS.falsy (Auth.lb_email req) || JS.falsy (Auth.lb_password req));
    [reflexivity|].
  unfold try_catch, mbind, Op_bind, get, mret, Op_ret; simpl.
  destruct (Auth.findOne _ users) as [u|]; [|reflexivity].
  destruct (negb _); reflexivity.
Qed.

(** X3. Registration and login round trip.  When bcrypt accepts the
    password against the hash it made of it, a user registered (201) under an email can log in,
    after any further registrations, with the lower-cased email and the
    password: the answer is 200 with a token for the user's id and role,
    and the role and the name of the registration. *)
Theorem register_then_login
        (amb amb' : Auth.Ambient) (users : Auth.Users)
        (name email password userType : string)
        (later : list (Auth.Ambient * Auth.RegisterBody)) :
  bcrypt_compare password (bcrypt_hash password (Auth.salt amb)) = true ->
  Auth.reachable users ->
  let registered :=
    Auth.register amb
      (Auth.mkRegisterBody (Some name) (Some email) (Some password)
                           (Some userType)) users in
  statusCode registered.2 = 201 ->
  let store := Auth.register_all later registered.1 in
  Auth.login amb'
    (Auth.mkLoginBody (Some (JS.toLowerCase email)) (Some password)) store
  = (store,
     mkResponse 200
       (Auth.Session (jwt_sign (Auth.fresh_id amb) userType (Auth.now amb'))
                     userType name)).
Proof.
  intros Hbcrypt Hreach registered Hst store.
  destruct (register_created amb users _ Hst)
    as (n & e & p & t & Hreq & Hn & He & Hp & Ht & Hstore).
  injection Hreq as <- <- <- <-. fold registered in Hstore.
  set (u := Auth.mkUser (Auth.fresh_id amb) name (JS.toLowerCase email)
              (bcrypt_hash password (Auth.salt amb)) userType (Auth.now amb))
    in Hstore.
  assert (Hin : u ∈ store).
  { apply register_all_keeps_users. rewrite Hstore.
    apply elem_of_app. right. left. }
  assert (Hwf : Auth.well_formed store).
  { apply reachable_well_formed, register_all_reachable.
    constructor. exact Hreach. }
  destruct Hwf as (_ & Hnd & _).
  assert (Hfind := User_findOne_stored store u Hnd Hin). simpl in Hfind.
  assert (Hresp := login_present amb' store (JS.toLowerCase email) password
                     (toLowerCase_not_empty email He) Hp).
  rewrite Hfind in Hresp. simpl in Hresp. rewrite Hbcrypt in Hresp.
  apply injective_projections; [apply login_reads_only | exact Hresp].
Qed.

End AuthFurther.

Lemma register_outcomes_witness :
  Auth.register Examples.amb1 Scenarios.teacher []
  = ([], mkResponse 500 (Auth.Message "Server error.")).
Proof.
  refine (proj1 (proj2 (proj2 (register_outcomes Examples.amb1
                                 Scenarios.teacher [])))
            eq_refl _ _);
    [compute_done | left; compute_done].
Defined.

Lemma stored_emails_differ_beyond_case_witness :
  exists u v : Auth.User,
    Scenarios.alice_and_bob !! 0%nat = Some u
    /\ Scenarios.alice_and_bob !! 1%nat = Some v
    /\ (JS.toLowerCase (Auth.email u) = JS.toLowerCase (Auth.email v) ->
        0%nat = 1%nat).
Proof.
  assert (Hreach : Auth.reachable Scenarios.alice_and_bob).
  { apply register_all_reachable. exact Auth.reachable_empty. }
  eexists _, _. split; [reflexivity|]. split; [reflexivity|].
  apply (stored_emails_differ_beyond_case Scenarios.alice_and_bob Hreach
           0%nat 1%nat); reflexivity.
Defined.

Lemma register_then_login_witness :
  let store :=
    Auth.register_all [(Examples.amb2, Scenarios.teacher)]
      (Auth.register Examples.amb1 Examples.alice []).1 in
  Auth.login Examples.amb2
    (Auth.mkLoginBody (Some "alice@example.com") (Some "hunter2")) store
  = (store,
     mkResponse 200 (Auth.Session "jwt.student" "student" "Alice")).
Proof.
  exact (register_then_login Examples.amb1 Examples.amb2 []
           "Alice" "Alice@Example.com" "hunter2" "student"
           [(Examples.amb2, Scenarios.teacher)]
           eq_refl Auth.reachable_empty eq_refl).
Defined.

(** ** Student profile store and student queries *)

Section StudentFurther.
Import StudentProfile.

(** What [submitDetails] does, step by step. *)
Lemma submitDetails_run (fresh_id : ObjectId) (req : Request)
      (students : Students) :
  submitDetails fresh_id req students
  = let b := req_body req in
    let failure :=
      (students, mkResponse 500 (Message "Failed to save student details")) in
    match req_files req with
    | None => failure
    | Some files =>
        match JS.JSON_parse_field (b_marks10 b),
              JS.JSON_parse_field (b_is12thCompleted b),
              JS.JSON_parse_field (b_marks12 b),
              JS.JSON_parse_field (b_parents b) with
        | Some m10, Some c12, Some m12, Some par =>
            if JS.falsy (b_email b) then failure
            else if bool_decide (fresh_id ∈ map _id students) then failure
            else
              ((students ++
                  [mkStudent fresh_id (JS.field_value (b_email b))
                     (b_location b) (b_pinCode b) m10 c12 m12 par
                     (b_interests b) (b_hobbies b) (b_fieldOfInterest b)
                     ((fun fn => "/uploads/" +:+ fn) <$> f_photo files)
                     ((fun fn => "/uploads/" +:+ fn) <$> f_markSheet files)])%list,
               mkResponse 201 (Message "Student details saved successfully"))
        | _, _, _, _ => failure
        end
    end.
Proof.
  unfold submitDetails, parse, save. run.
  destruct (req_files req) as [files|]; [|reflexivity]. simpl.
  destruct (JS.JSON_parse_field (b_marks10 _)); [|reflexivity]. simpl.
  destruct (JS.JSON_parse_field (b_is12thCompleted _)); [|reflexivity]. simpl.
  destruct (JS.JSON_parse_field (b_marks12 _)); [|reflexivity]. simpl.
  destruct (JS.JSON_parse_field (b_parents _)); [|reflexivity]. simpl.
  destruct (JS.falsy (b_email _)); [reflexivity|].
  destruct (bool_decide _); reflexivity.
Qed.



(** Looking a student up in a store that grew at its end. *)
Lemma Student_findOne_app (e : string) (students more : Students) :
  StudentQueries.findOne e (students ++ more)%list
  = match StudentQueries.findOne e students with
    | Some s => Some s
    | None => StudentQueries.findOne e more
    end.
Proof.
  unfold StudentQueries.findOne, Collection.findOne.
  induction students as [|x students IH]; simpl; [reflexivity|].
  destruct (StudentQueries.has_email e x); [reflexivity | exact IH].
Qed.

(** What the two lookups answer. *)
Lemma byEmail_run (e : option string) (students : Students) :
  StudentQueries.byEmail e students
  = (students,
     if JS.falsy e
     then mkResponse 400 (StudentQueries.Message "Email is required")
     else match StudentQueries.findOne (JS.field_value e) students with
          | None => mkResponse 404 (StudentQueries.Message "Student not found")
          | Some student => mkResponse 200 (StudentQueries.Document student)
          end).
Proof.
  unfold StudentQueries.byEmail. destruct (JS.falsy e); [reflexivity|]. run.
  destruct (StudentQueries.findOne _ students); reflexivity.
Qed.

Lemma recommendationInfo_run (e : option string) (students : Students) :
  StudentQueries.recommendationInfo e students
  = (students,
     if JS.falsy e
     then mkResponse 400 (StudentQueries.Message "Email is required")
     else match StudentQueries.findOne (JS.field_value e) students with
          | None => mkResponse 404 (StudentQueries.Message "Student not found")
          | Some student =>
              mkResponse 200
                (StudentQueries.Info (email student) (location student)
                   (StudentQueries.member "fatherSalary" (parents student))
                   (StudentQueries.member "motherSalary" (parents student)))
          end).
Proof.
  unfold StudentQueries.recommendationInfo.
  destruct (JS.falsy e); [reflexivity|]. run.
  destruct (StudentQueries.findOne _ students); reflexivity.
Qed.


(** A submission leaves the stored profiles where they are and adds one
    at most. *)
Lemma submitDetails_appends (fresh_id : ObjectId) (req : Request)
      (students : Students) :
  exists more,
    (submitDetails fresh_id req students).1 = (students ++ more)%list
    /\ (length more <= 1)%nat.
Proof.
  rewrite submitDetails_run. cbv zeta.
  repeat match goal with
         | |- context [match ?x with _ => _ end] => destruct x
         end; simpl;
    first [ exists []; rewrite app_nil_r; split; [reflexivity | simpl; lia]
          | eexists [_]; split; [reflexivity | simpl; lia] ].
Qed.

(** X6. The first profile wins.  Emails are not unique among profiles:
    when a profile is stored under an email, [getByEmail] for that email
    still answers with that profile after any further submission, also one
    under the same email. *)
Theorem byEmail_first_match_wins (fresh_id : ObjectId) (req : Request)
        (students : Students) (e : string) (s : Student) :
  e <> "" ->
  StudentQueries.findOne e students = Some s ->
  let store := (submitDetails fresh_id req students).1 in
  StudentQueries.byEmail (Some e) store
  = (store, mkResponse 200 (StudentQueries.Document s)).
Proof.
  intros Hne Hfind store.
  destruct (submitDetails_appends fresh_id req students) as (more & Hstore & _).
  fold store in Hstore.
  rewrite byEmail_run, (falsy_Some e Hne), Hstore, Student_findOne_app.
  change (JS.field_value (Some e)) with e. rewrite Hfind. reflexivity.
Qed.

(** X7. [getRecommendationInfo] is [getByEmail] behind a projection: on
    every store and for every email field the two answer with the same
    status, 400 for a missing email and 404 for an email without a
    profile, and leave the store as it is; when [getByEmail] answers with a
    profile, [getRecommendationInfo] answers with the email and the
    location of that profile and the two salaries of its [parents]. *)
Theorem recommendationInfo_follows_byEmail (e : option string)
        (students : Students) :
  let full := StudentQueries.byEmail e students in
  let info := StudentQueries.recommendationInfo e students in
  full.1 = students /\ info.1 = students
  /\ statusCode info.2 = statusCode full.2
  /\ (JS.falsy e = true <-> statusCode full.2 = 400)
  /\ (JS.falsy e = false ->
      StudentQueries.findOne (JS.field_value e) students = None <->
      statusCode full.2 = 404)
  /\ match body full.2 with
     | StudentQueries.Document student =>
         body info.2
         = StudentQueries.Info (email student) (location student)
             (StudentQueries.member "fatherSalary" (parents student))
             (StudentQueries.member "motherSalary" (parents student))
     | other => body info.2 = other
     end.
Proof.
  intros full info. unfold full, info.
  rewrite byEmail_run, recommendationInfo_run. simpl.
  destruct (JS.falsy e); simpl.
  - repeat split; intros; try reflexivity; discriminate.
  - destruct (StudentQueries.findOne (JS.field_value e) students); simpl;
      repeat split; intros; try reflexivity; discriminate.
Qed.

(** X8. Profiles are never altered or removed: after a submission, with
    whatever outcome, [GET /students] lists every profile that was stored
    before, at its position, followed by one new profile at most. *)
Theorem students_lists_every_profile (fresh_id : ObjectId) (req : Request)
        (students : Students) :
  let store := (submitDetails fresh_id req students).1 in
  exists more,
    StudentQueries.students store
    = (store, mkResponse 200 (StudentQueries.Documents (students ++ more)%list))
    /\ (length more <= 1)%nat
    /\ forall (i : nat) (s : Student),
         students !! i = Some s -> (students ++ more)%list !! i = Some s.
Proof.
  intros store.
  destruct (submitDetails_appends fresh_id req students) as (more & Hstore & Hlen).
  fold store in Hstore. exists more.
  split; [rewrite Hstore; reflexivity|]. split; [exact Hlen|].
  intros i s Hi. apply lookup_app_l_Some. exact Hi.
Qed.

End StudentFurther.



Lemma byEmail_first_match_wins_witness :
  exists first,
    Scenarios.one_student = [first]
    /\ let store :=
         (StudentProfile.submitDetails 2 Examples.wellformed_marks10
            Scenarios.one_student).1 in
       length store = 2%nat
       /\ StudentQueries.byEmail (Some "alice@example.com") store
          = (store, mkResponse 200 (StudentQueries.Document first)).
Proof.
  eexists. split; [reflexivity|]. split; [reflexivity|].
  apply (byEmail_first_match_wins 2 Examples.wellformed_marks10
           Scenarios.one_student "alice@example.com");
    [discriminate | reflexivity].
Defined.

Lemma recommendationInfo_follows_byEmail_witness :
  statusCode
    (StudentQueries.byEmail (Some "nobody@example.com")
       Scenarios.one_student).2 = 404.
Proof.
  apply (proj1 (proj2 (proj2 (proj2 (proj2
           (recommendationInfo_follows_byEmail (Some "nobody@example.com")
              Scenarios.one_student))))));
    reflexivity.
Defined.

(** ** College-admin workflow *)

Section CollegeAdminFurther.
Import CollegeAdminWorkflow.


(** Deleting the document that was appended last. *)
Lemma deleteOne_appended {Doc} (filter : Doc -> bool) (docs : list Doc)
      (x : Doc) :
  (forall d, d ∈ docs -> filter d = false) -> filter x = true ->
  Collection.deleteOne filter (docs ++ [x])%list = docs.
Proof.
  intros Hno Hx. induction docs as [|d docs IH]; simpl.
  - rewrite Hx. reflexivity.
  - rewrite (Hno d) by left. f_equal. apply IH. intros y Hy.
    apply Hno. right. exact Hy.
Qed.

(** Deleting a document keeps the ids of a collection distinct. *)
Lemma deleteOne_NoDup (id : ObjectId) (docs : list CollegeAdmin) :
  NoDup (map _id docs) ->
  NoDup (map _id (Collection.deleteOne (has_id id) docs)).
Proof.
  induction docs as [|d docs IH]; simpl; [auto|]. intros Hnd.
  apply NoDup_cons in Hnd as [Hd Hnd].
  destruct (has_id id d); [exact Hnd|]. simpl.
  apply NoDup_cons. split; [|exact (IH Hnd)].
  intros Hin. apply Hd. exact (CollegeAdmin_deleteOne_present id _ docs Hin).
Qed.

(** An insert keeps the ids distinct and the documents in place. *)
Lemma insert_NoDup (id : ObjectId) (f : Fields) (docs docs' : list CollegeAdmin) :
  insert id f docs = Returns docs' ->
  (NoDup (map _id docs) -> NoDup (map _id docs'))
  /\ exists doc, docs' = (docs ++ [doc])%list.
Proof.
  unfold insert. destruct (document id f) as [doc|] eqn:Hdoc; [|discriminate].
  case_bool_decide as Hfree; [discriminate|]. intros [= <-].
  split; [|eauto]. intros Hnd.
  destruct (document_valid _ _ _ Hdoc) as [_ Hid].
  rewrite map_app. apply NoDup_app. split; [exact Hnd|]. split.
  - intros x Hx Hin. simpl in Hin. apply list_elem_of_singleton in Hin.
    subst x. rewrite Hid in Hx. exact (Hfree Hx).
  - apply NoDup_singleton.
Qed.

(** What [collegeAdminData] does. *)
Lemma collegeAdminData_run (fresh_id : ObjectId) (f : Fields) (st : Store) :
  collegeAdminData fresh_id f st
  = if JS.falsy (f_email f) || JS.falsy (f_location f)
       || JS.falsy (f_pincode f) || JS.falsy (f_universityAffiliation f)
       || JS.falsy (f_naacCertPhoto f) || JS.falsy (f_website f)
       || falsy_number (f_noOfBranches f) || falsy_array (f_branches f)
    then (st, mkResponse 400 (Error "All fields are required"))
    else match insert fresh_id f (pending st) with
         | Returns docs =>
             (mkStore docs (approved st),
              mkResponse 201
                (Status "ok" "College Admin data saved successfully"))
         | Throws _ =>
             (st, mkResponse 500 (Error "Error saving College Admin data"))
         end.
Proof.
  unfold collegeAdminData, CollegeAdmin_save. run.
  destruct (_ || _); [reflexivity|].
  destruct (insert _ _ _); reflexivity.
Qed.


(** X10. Submission and disapproval round trip: after a submission that
    is answered 201, disapproving the new id is answered 200 and leaves
    both collections exactly as they were before the submission. *)
Theorem submit_then_disapprove (fresh_id : ObjectId) (f : Fields) (st : Store) :
  let submitted := collegeAdminData fresh_id f st in
  statusCode submitted.2 = 201 ->
  disapproveCollegeAdmin fresh_id submitted.1
  = (st, mkResponse 200 (Text "College Admin disapproved")).
Proof.
  intros submitted Hst. unfold submitted in *.
  rewrite collegeAdminData_run in *.
  destruct (_ || _); [discriminate|]. unfold insert in *.
  destruct (document fresh_id f) as [doc|] eqn:Hdoc; [|discriminate].
  case_bool_decide as Hfree; [discriminate|]. simpl.
  destruct (document_valid _ _ _ Hdoc) as [_ Hid].
  rewrite disapproveCollegeAdmin_run. simpl.
  rewrite deleteOne_appended.
  - destruct st; reflexivity.
  - apply CollegeAdmin_has_id_false. exact Hfree.
  - unfold has_id. apply bool_decide_eq_true_2. exact Hid.
Qed.

(** X11. Approval stores what the client sent, not what is pending.  For
    a body that carries the id of a pending request and fields that pass
    the validation, [approve] appends the document built from the fields
    of the body to the approved collection and deletes the pending request;
    when the fields differ from the stored ones, the request as it was
    submitted is in neither collection afterwards. *)
Theorem approve_stores_the_body (st : Store) (r d : CollegeAdmin) (f : Fields) :
  NoDup (map _id (pending st)) ->
  r ∈ pending st ->
  ~ present (_id r) (approved st) ->
  document (_id r) f = Some d ->
  let approval := approveCollegeAdmin (mkAdminBody (_id r) f) st in
  approval
  = (mkStore (Collection.deleteOne (has_id (_id r)) (pending st))
             (approved st ++ [d])%list,
     mkResponse 200 (Text "College Admin approved"))
  /\ (d <> r -> (r ∉ pending approval.1) /\ (r ∉ approved approval.1)).
Proof.
  intros Hnd Hr Hfree Hdoc approval.
  assert (Hrun : approval
                 = (mkStore (Collection.deleteOne (has_id (_id r)) (pending st))
                            (approved st ++ [d])%list,
                    mkResponse 200 (Text "College Admin approved"))).
  { unfold approval. rewrite approveCollegeAdmin_run. unfold insert. simpl.
    rewrite Hdoc, bool_decide_eq_false_2 by exact Hfree. reflexivity. }
  split; [exact Hrun|]. rewrite Hrun. simpl. intros Hne. split.
  - intros Hin.
    apply (CollegeAdmin_deleteOne_removes (_id r) (pending st) Hnd).
    apply list_elem_of_fmap_2. exact Hin.
  - intros Hin. apply elem_of_app in Hin as [Hin|Hin].
    + apply Hfree. apply list_elem_of_fmap_2. exact Hin.
    + apply list_elem_of_singleton in Hin. congruence.
Qed.

(** X12. What every handler of the workflow keeps.  After any run of
    submissions, listings, approvals and disapprovals, the ids are distinct
    in the pending collection and in the approved collection if they were
    before, and the approved collection has only grown at its end: no
    handler alters or removes an approved record. *)
Theorem approved_is_append_only (rs : list CollegeAdminService.Request)
        (st : Store) :
  NoDup (map _id (pending st)) -> NoDup (map _id (approved st)) ->
  let st' := CollegeAdminService.run rs st in
  NoDup (map _id (pending st')) /\ NoDup (map _id (approved st'))
  /\ exists more, approved st' = (approved st ++ more)%list.
Proof.
  revert st. induction rs as [|r rs IH]; intros st Hp Ha.
  { simpl. split; [exact Hp|]. split; [exact Ha|].
    exists []. rewrite app_nil_r. reflexivity. }
  assert (Hstep : NoDup (map _id (pending (CollegeAdminService.handle r st).1))
                  /\ NoDup (map _id (approved (CollegeAdminService.handle r st).1))
                  /\ exists more,
                       approved (CollegeAdminService.handle r st).1
                       = (approved st ++ more)%list).
  { destruct r as [id f| |admin|id]; cbn [CollegeAdminService.handle].
    - rewrite collegeAdminData_run.
      destruct (_ || _); simpl;
        [split; [exact Hp|]; split; [exact Ha|]; exists [];
         rewrite app_nil_r; reflexivity|].
      destruct (insert id f (pending st)) as [docs|e] eqn:Hins; simpl.
      + split; [exact (proj1 (insert_NoDup _ _ _ _ Hins) Hp)|].
        split; [exact Ha|]. exists []. rewrite app_nil_r. reflexivity.
      + split; [exact Hp|]. split; [exact Ha|].
        exists []. rewrite app_nil_r. reflexivity.
    - simpl. split; [exact Hp|]. split; [exact Ha|].
      exists []. rewrite app_nil_r. reflexivity.
    - rewrite approveCollegeAdmin_run.
      destruct (insert _ _ (approved st)) as [docs|e] eqn:Hins; simpl.
      + destruct (insert_NoDup _ _ _ _ Hins) as [Hnd (doc & ->)].
        split; [apply deleteOne_NoDup; exact Hp|].
        split; [exact (Hnd Ha) | eauto].
      + split; [exact Hp|]. split; [exact Ha|].
        exists []. rewrite app_nil_r. reflexivity.
    - rewrite disapproveCollegeAdmin_run. simpl.
      split; [apply deleteOne_NoDup; exact Hp|]. split; [exact Ha|].
      exists []. rewrite app_nil_r. reflexivity. }
  destruct Hstep as (Hp' & Ha' & more & Hmore).
  destruct (IH _ Hp' Ha') as (Hp'' & Ha'' & more' & Hmore').
  cbv zeta.
  change (CollegeAdminService.run (r :: rs) st)
    with (CollegeAdminService.run rs (CollegeAdminService.handle r st).1).
  split; [exact Hp''|]. split; [exact Ha''|].
  exists (more ++ more')%list. rewrite Hmore', Hmore, app_assoc. reflexivity.
Qed.

End CollegeAdminFurther.


Lemma submit_then_disapprove_witness :
  CollegeAdminWorkflow.disapproveCollegeAdmin 8
    (CollegeAdminWorkflow.collegeAdminData 8 Scenarios.new_college
       Examples.one_pending).1
  = (Examples.one_pending,
     mkResponse 200 (CollegeAdminWorkflow.Text "College Admin disapproved")).
Proof.
  apply (submit_then_disapprove 8 Scenarios.new_college Examples.one_pending).
  reflexivity.
Defined.

Lemma approve_stores_the_body_witness :
  let approval :=
    CollegeAdminWorkflow.approveCollegeAdmin
      (CollegeAdminWorkflow.mkAdminBody 7 Scenarios.other_email)
      Examples.one_pending in
  approval
  = (CollegeAdminWorkflow.mkStore [] [Scenarios.request7_other_email],
     mkResponse 200 (CollegeAdminWorkflow.Text "College Admin approved"))
  /\ (Scenarios.request7_other_email <> Examples.request7 ->
      (Examples.request7 ∉ CollegeAdminWorkflow.pending approval.1)
      /\ (Examples.request7 ∉ CollegeAdminWorkflow.approved approval.1)).
Proof.
  apply (approve_stores_the_body Examples.one_pending Examples.request7
           Scenarios.request7_other_email Scenarios.other_email);
    [compute_done | compute_done | | reflexivity].
  unfold CollegeAdminWorkflow.present. compute_done.
Defined.

Lemma approved_is_append_only_witness :
  let st' := CollegeAdminService.run Scenarios.admin_run Examples.one_pending in
  NoDup (map CollegeAdminWorkflow._id (CollegeAdminWorkflow.pending st'))
  /\ NoDup (map CollegeAdminWorkflow._id (CollegeAdminWorkflow.approved st'))
  /\ exists more,
       CollegeAdminWorkflow.approved st'
       = (CollegeAdminWorkflow.approved Examples.one_pending ++ more)%list.
Proof.
  apply (approved_is_append_only Scenarios.admin_run Examples.one_pending);
    compute_done.
Defined.

(** ** Placement data workflow *)

Section PlacementFurther.
Import Placement.
Context `{CsvDecoder}.

(** What [upload] does, after the middleware has stored the file. *)
Lemma upload_run (fresh_id : ObjectId) (req : UploadRequest) (st : Store) :
  upload fresh_id req st
  = match u_file req with
    | None => (st, mkResponse 400 (Message "Missing required fields"))
    | Some f =>
        let stored :=
          mkStore (records st)
                  (<[ "uploads/" +:+ originalname f := contents f ]> (disk st)) in
        if JS.falsy (u_collegeName req) || JS.falsy (u_year req)
        then (stored, mkResponse 400 (Message "Missing required fields"))
        else
          match JS.parseInt (JS.field_value (u_year req)) with
          | None => (stored, mkResponse 500 (Message "Server error"))
          | Some y =>
              if bool_decide (originalname f = "")
                 || bool_decide (mimetype f = "")
                 || bool_decide (fresh_id ∈ map _id (records st))
              then (stored, mkResponse 500 (Message "Server error"))
              else
                (mkStore
                   (records st ++
                      [mkPlacementData fresh_id
                         (JS.field_value (u_collegeName req)) y
                         ("uploads/" +:+ originalname f) (originalname f)
                         (mimetype f) false])%list
                   (disk stored),
                 mkResponse 201 (Message "Data uploaded successfully"))
          end
    end.
Proof.
  unfold upload, multer_single.
  destruct (u_file req) as [f|]; [|reflexivity].
  destruct (JS.falsy (u_collegeName req)) eqn:Hc; [reflexivity|].
  destruct (JS.falsy (u_year req)) eqn:Hy; [reflexivity|].
  apply falsy_false in Hc as (c & -> & Hc).
  unfold save. run.
  destruct (JS.parseInt _); [|reflexivity].
  rewrite (bool_decide_eq_false_2 _ Hc). simpl.
  destruct (bool_decide (originalname f = "")); [reflexivity|].
  destruct (bool_decide (mimetype f = "")); [reflexivity|]. simpl.
  destruct (bool_decide _); reflexivity.
Qed.


(** A record of the pending list whose file is on the disk has its
    entry. *)
Lemma pending_entries_elem (disk : gmap string string)
      (docs : list PlacementData) (d : PlacementData) (file : string) :
  d ∈ docs -> disk !! fileUrl d = Some file ->
  mkPendingEntry (_id d) (collegeName d) (year d) (csvParser file)
  ∈ pending_entries disk docs.
Proof.
  intros Hd Hfile. induction docs as [|x docs IH]; [inversion Hd|].
  simpl. apply elem_of_cons in Hd as [<-|Hd].
  - rewrite Hfile. left.
  - destruct (disk !! fileUrl x); [right|]; exact (IH Hd).
Qed.

(** The record that an upload answered 201 has stored. *)
Lemma upload_saved (fresh_id : ObjectId) (req : UploadRequest) (st : Store) :
  statusCode (upload fresh_id req st).2 = 201 ->
  exists f d,
    u_file req = Some f
    /\ (upload fresh_id req st).1
       = mkStore (records st ++ [d])%list
           (<[ "uploads/" +:+ originalname f := contents f ]> (disk st))
    /\ _id d = fresh_id /\ approved d = false
    /\ fileUrl d = "uploads/" +:+ originalname f
    /\ fileName d = originalname f
    /\ collegeName d <> ""
    /\ fresh_id ∉ map _id (records st).
Proof.
  rewrite upload_run.
  destruct (u_file req) as [f|]; [|discriminate]. cbv zeta.
  destruct (JS.falsy (u_collegeName req)) eqn:Hc; [discriminate|].
  destruct (JS.falsy (u_year req)); [discriminate|]. simpl.
  destruct (JS.parseInt _) as [y|]; [|discriminate].
  destruct (bool_decide (originalname f = "")); [discriminate|].
  destruct (bool_decide (mimetype f = "")); [discriminate|]. simpl.
  case_bool_decide as Hfree; [discriminate|]. intros _.
  apply falsy_false in Hc as (c & -> & Hc).
  eexists f, _. split; [reflexivity|]. split; [reflexivity|].
  simpl. repeat split; assumption.
Qed.

(** X14. Two uploads under one file name share one file.  When two
    uploads with the same original file name are both answered 201, the
    second file replaces the first on the disk, both records refer to it,
    and the pending list shows the decoded contents of the second file for
    the first record as well. *)
Theorem upload_same_name_overwrites
        (id1 id2 : ObjectId) (req1 req2 : UploadRequest) (st : Store)
        (f1 f2 : UploadedFile) :
  u_file req1 = Some f1 -> u_file req2 = Some f2 ->
  originalname f1 = originalname f2 ->
  let first := upload id1 req1 st in
  let second := upload id2 req2 first.1 in
  statusCode first.2 = 201 -> statusCode second.2 = 201 ->
  exists d1 d2,
    records second.1 = (records st ++ [d1; d2])%list
    /\ _id d1 = id1 /\ _id d2 = id2
    /\ fileUrl d1 = fileUrl d2
    /\ disk second.1 !! fileUrl d1 = Some (contents f2)
    /\ mkPendingEntry id1 (collegeName d1) (year d1) (csvParser (contents f2))
       ∈ match body (get_placement_data second.1).2 with
         | PendingList entries => entries
         | _ => []
         end.
Proof.
  intros Hf1 Hf2 Hname first second Hst1 Hst2.
  destruct (upload_saved id1 req1 st Hst1)
    as (g1 & d1 & Hg1 & Hstore1 & Hid1 & Hap1 & Hurl1 & _).
  fold first in Hstore1. rewrite Hf1 in Hg1. injection Hg1 as <-.
  destruct (upload_saved id2 req2 first.1 Hst2)
    as (g2 & d2 & Hg2 & Hstore2 & Hid2 & Hap2 & Hurl2 & _).
  fold second in Hstore2. rewrite Hf2 in Hg2. injection Hg2 as <-.
  rewrite Hstore1 in Hstore2. simpl in Hstore2.
  assert (Hsame : fileUrl d1 = fileUrl d2) by congruence.
  assert (Hdisk : disk second.1 !! fileUrl d1 = Some (contents f2)).
  { rewrite Hstore2, Hsame, Hurl2. simpl. apply lookup_insert_eq. }
  exists d1, d2. rewrite Hstore2 at 1. simpl.
  split; [rewrite <- app_assoc; reflexivity|].
  repeat (split; [assumption|]).
  unfold get_placement_data. run. rewrite <- Hid1.
  apply pending_entries_elem; [|exact Hdisk].
  unfold Collection.find. apply list_elem_of_In, filter_In.
  rewrite Hap1. split; [|reflexivity]. apply list_elem_of_In.
  rewrite Hstore2. simpl. rewrite <- app_assoc.
  apply elem_of_app. right. left.
Qed.

(** X15. What the pending list shows.  [listPending] always answers 200
    and leaves the store as it is; it lists, in the order of the
    collection, exactly the records that are not approved and whose file is
    on the disk, the others being skipped. *)
Theorem listPending_lists_exactly (st : Store) :
  get_placement_data st
  = (st,
     mkResponse 200
       (PendingList
          (omap (fun d =>
                   file ← disk st !! fileUrl d;
                   Some (mkPendingEntry (_id d) (collegeName d) (year d)
                                        (csvParser file)))
                (List.filter (fun d => negb (approved d)) (records st)))))
  /\ listed_ids (body (get_placement_data st).2)
     = map _id (List.filter
                  (fun d => negb (approved d)
                            && bool_decide (is_Some (disk st !! fileUrl d)))
                  (records st)).
Proof.
  assert (Hloop : forall docs,
            pending_entries (disk st) docs
            = omap (fun d =>
                      file ← disk st !! fileUrl d;
                      Some (mkPendingEntry (_id d) (collegeName d) (year d)
                                           (csvParser file))) docs).
  { induction docs as [|x docs IH]; simpl; [reflexivity|].
    destruct (disk st !! fileUrl x); simpl; rewrite IH; reflexivity. }
  split.
  - unfold get_placement_data. run. unfold Collection.find.
    rewrite Hloop. reflexivity.
  - unfold get_placement_data. run. unfold Collection.find.
    induction (records st) as [|x docs IH]; simpl; [reflexivity|].
    destruct (approved x); simpl; [exact IH|].
    destruct (disk st !! fileUrl x) eqn:Hx; simpl.
    + f_equal. exact IH.
    + exact IH.
Qed.

End PlacementFurther.

Section CollectionFurther.
Context {Doc : Type}.
Implicit Types (filter : Doc -> bool) (docs : list Doc).

Lemma updateOne_idempotent filter (f : Doc -> Doc) docs :
  (forall d, filter d = true -> filter (f d) = true) ->
  (forall d, f (f d) = f d) ->
  Collection.updateOne filter f (Collection.updateOne filter f docs)
  = Collection.updateOne filter f docs.
Proof.
  intros Hkeep Hidem. induction docs as [|x docs IH]; simpl; [reflexivity|].
  destruct (filter x) eqn:Hx; simpl.
  - rewrite (Hkeep x Hx), Hidem. reflexivity.
  - rewrite Hx, IH. reflexivity.
Qed.

Lemma updateOne_preserves {B : Type} (g : Doc -> B) filter (f : Doc -> Doc)
      docs :
  (forall d, g (f d) = g d) ->
  map g (Collection.updateOne filter f docs) = map g docs.
Proof.
  intros Hg. induction docs as [|x docs IH]; simpl; [reflexivity|].
  destruct (filter x); simpl; [rewrite Hg | rewrite IH]; reflexivity.
Qed.

Lemma updateOne_elem filter (f : Doc -> Doc) docs d :
  d ∈ Collection.updateOne filter f docs ->
  d ∈ docs \/ exists x, x ∈ docs /\ d = f x.
Proof.
  induction docs as [|x docs IH]; simpl; [intros Hd; inversion Hd|].
  destruct (filter x).
  - intros Hd. apply elem_of_cons in Hd as [->|Hd].
    + right. exists x. split; [left | reflexivity].
    + left. right. exact Hd.
  - intros Hd. apply elem_of_cons in Hd as [->|Hd]; [left; left|].
    destruct (IH Hd) as [Hin|(y & Hy & ->)].
    + left. right. exact Hin.
    + right. exists y. split; [right; exact Hy | reflexivity].
Qed.

Lemma deleteOne_map_subset {B : Type} (g : Doc -> B) filter docs b :
  b ∈ map g (Collection.deleteOne filter docs) -> b ∈ map g docs.
Proof.
  induction docs as [|x docs IH]; simpl; [auto|].
  destruct (filter x); simpl; [right; assumption|].
  intros Hb. apply elem_of_cons in Hb as [->|Hb]; [left | right; auto].
Qed.

Lemma deleteOne_keeps_NoDup {B : Type} (g : Doc -> B) filter docs :
  NoDup (map g docs) -> NoDup (map g (Collection.deleteOne filter docs)).
Proof.
  induction docs as [|x docs IH]; simpl; [auto|]. intros Hnd.
  apply NoDup_cons in Hnd as [Hx Hnd].
  destruct (filter x); simpl; [exact Hnd|].
  apply NoDup_cons. split; [|exact (IH Hnd)].
  intros Hin. apply Hx. exact (deleteOne_map_subset g filter docs _ Hin).
Qed.

End CollectionFurther.

Section PlacementLifecycle.
Import Placement.
Context `{CsvDecoder}.

(** What [reject_placement] does to an id. *)
Lemma reject_placement_run (id : ObjectId) (st : Store) :
  reject_placement (Some id) st
  = match Collection.findOne (has_id id) (records st) with
    | Some d =>
        (mkStore (Collection.deleteOne (has_id id) (records st)) (disk st),
         mkResponse 200 (Message "Placement rejected successfully"))
    | None => (st, mkResponse 404 (Message "Placement not found"))
    end.
Proof.
  unfold reject_placement, findByIdAndDelete. run.
  destruct (Collection.findOne (has_id id) (records st)) eqn:Hf; simpl;
    [reflexivity|].
  rewrite deleteOne_no_match by (apply findOne_None; exact Hf).
  destruct st; reflexivity.
Qed.


Lemma set_approved_idempotent (d : PlacementData) :
  set_approved (set_approved d) = set_approved d.
Proof. reflexivity. Qed.

Lemma has_id_set_approved (id : ObjectId) (d : PlacementData) :
  has_id id (set_approved d) = has_id id d.
Proof. reflexivity. Qed.

(** X17. Approving is idempotent.  Once [approve] has answered 200 for an
    id, approving the same id again answers the same, with the same
    record, and leaves the store as the first approval left it. *)
Theorem approve_placement_idempotent (st : Store) (id : ObjectId) :
  let first := approve_placement (Some id) st in
  statusCode first.2 = 200 ->
  approve_placement (Some id) first.1 = first.
Proof.
  intros first. unfold first. rewrite approve_placement_run.
  destruct (Collection.findOne (has_id id) (records st)) as [d|] eqn:Hf;
    [|discriminate].
  intros _. cbn [fst]. rewrite approve_placement_run. cbn [records disk].
  rewrite (findOne_updateOne _ _ _ d) by (auto using has_id_set_approved).
  rewrite updateOne_idempotent; [reflexivity| |].
  - intros x Hx. rewrite has_id_set_approved. exact Hx.
  - exact set_approved_idempotent.
Qed.

Lemma findOne_app_last {Doc} (filter : Doc -> bool) (docs : list Doc)
      (d : Doc) :
  (forall x, x ∈ docs -> filter x = false) -> filter d = true ->
  Collection.findOne filter (docs ++ [d])%list = Some d.
Proof.
  intros Hall Hd. unfold Collection.findOne.
  induction docs as [|x docs IH]; simpl; [rewrite Hd; reflexivity|].
  rewrite (Hall x) by left. apply IH. intros y Hy. apply Hall. right. exact Hy.
Qed.

Lemma updateOne_app_last {Doc} (filter : Doc -> bool) (f : Doc -> Doc)
      (docs : list Doc) (d : Doc) :
  (forall x, x ∈ docs -> filter x = false) -> filter d = true ->
  Collection.updateOne filter f (docs ++ [d])%list = (docs ++ [f d])%list.
Proof.
  intros Hall Hd.
  induction docs as [|x docs IH]; simpl; [rewrite Hd; reflexivity|].
  rewrite (Hall x) by left. f_equal. apply IH. intros y Hy.
  apply Hall. right. exact Hy.
Qed.

Lemma has_id_fresh (id : ObjectId) (docs : list PlacementData) :
  id ∉ map _id docs -> forall x, x ∈ docs -> has_id id x = false.
Proof.
  intros Hfresh x Hx. apply bool_decide_eq_false_2. intros Hid.
  apply Hfresh. rewrite <- Hid.
  change (map _id docs) with (_id <$> docs). apply list_elem_of_fmap_2.
  exact Hx.
Qed.

(** X18. From upload to publication.  When an upload is answered 201, its
    record is on the pending list; approving its id answers 200, after
    which the record is no longer on the pending list and a query for the
    college name and the year of the upload is answered with a list that
    holds the decoded contents of the uploaded file. *)
Theorem upload_approve_publishes (fresh_id : ObjectId) (req : UploadRequest)
        (st : Store) (f : UploadedFile) :
  u_file req = Some f ->
  let uploaded := upload fresh_id req st in
  statusCode uploaded.2 = 201 ->
  let published := approve_placement (Some fresh_id) uploaded.1 in
  fresh_id ∈ listed_ids (body (get_placement_data uploaded.1).2)
  /\ statusCode published.2 = 200
  /\ (fresh_id ∉ listed_ids (body (get_placement_data published.1).2))
  /\ exists y,
       JS.parseInt (JS.field_value (u_year req)) = Some y
       /\ let answer :=
            (get_approved_placement_data
               (mkQuery (u_collegeName req) (u_year req)) published.1).2 in
          statusCode answer = 200
          /\ mkApprovedEntry (JS.field_value (u_collegeName req)) y
                             (csvParser (contents f))
             ∈ listed_entries (body answer).
Proof.
  intros Hf uploaded. unfold uploaded. rewrite upload_run, Hf. cbv zeta.
  destruct (JS.falsy (u_collegeName req)) eqn:Hc; [discriminate|].
  destruct (JS.falsy (u_year req)) eqn:Hy; [discriminate|]. simpl orb.
  cbv iota.
  destruct (JS.parseInt (JS.field_value (u_year req))) as [y|] eqn:Hparse;
    [|discriminate].
  destruct (bool_decide (originalname f = "")); [discriminate|].
  destruct (bool_decide (mimetype f = "")); [discriminate|]. simpl orb.
  case_bool_decide as Hfree; [discriminate|]. intros _.
  apply falsy_false in Hc as (c & Hceq & Hc).
  apply falsy_false in Hy as (ys & Hyeq & Hys).
  rewrite Hceq, Hyeq in *.
  change (JS.field_value (Some c)) with c in *.
  change (JS.field_value (Some ys)) with ys in *.
  cbn [fst snd records disk].
  set (url := "uploads/" +:+ originalname f).
  set (doc := mkPlacementData fresh_id c y url (originalname f) (mimetype f)
                              false).
  set (files := <[url := contents f]> (disk st)).
  assert (Hfile : files !! url = Some (contents f))
    by apply lookup_insert_eq.
  assert (Hid : has_id fresh_id doc = true)
    by (apply bool_decide_eq_true_2; reflexivity).
  pose proof (has_id_fresh fresh_id (records st) Hfree) as Hothers.
  rewrite approve_placement_run. cbn [records disk].
  rewrite (findOne_app_last _ _ doc Hothers Hid).
  rewrite (updateOne_app_last _ set_approved _ doc Hothers Hid).
  cbn [fst snd statusCode].
  split; [|split; [reflexivity|split]].
  - unfold get_placement_data. run. unfold Collection.find.
    change fresh_id
      with (pe_id (mkPendingEntry (_id doc) (collegeName doc) (year doc)
                                  (csvParser (contents f)))).
    change (map pe_id ?l) with (pe_id <$> l).
    apply list_elem_of_fmap_2. apply pending_entries_elem; [|exact Hfile].
    apply list_elem_of_In, filter_In. split; [|reflexivity].
    apply in_or_app. right. left. reflexivity.
  - unfold get_placement_data. run. intros Hin.
    apply pending_entries_id in Hin as (d & Hd & Hdid).
    unfold Collection.find in Hd.
    apply list_elem_of_In, filter_In in Hd as [Hd Hpending].
    apply in_app_or in Hd as [Hd|[<-|[]]].
    + apply list_elem_of_In in Hd.
      pose proof (Hothers d Hd) as Hno.
      apply bool_decide_eq_false_1 in Hno. contradiction.
    + discriminate.
  - exists y. split; [reflexivity|]. cbv zeta.
    rewrite (get_approved_placement_data_run c ys y _ Hc Hparse).
    cbn [snd].
    assert (Hmatch : set_approved doc
                     ∈ matching c y
                         (mkStore (records st ++ [set_approved doc])%list
                                  files)).
    { unfold matching, Collection.find. apply list_elem_of_In, filter_In.
      split; [apply in_or_app; right; left; reflexivity|].
      simpl. rewrite !bool_decide_eq_true_2 by reflexivity. reflexivity. }
    destruct (matching c y _) as [|m ms] eqn:Hms; [inversion Hmatch|].
    split; [reflexivity|]. cbn [body listed_entries disk].
    exact (approved_entries_elem files (m :: ms) (set_approved doc)
             (contents f) Hmatch Hfile).
Qed.

(** No request but an upload changes the disk, and [listPending] and
    [queryApproved] change nothing at all. *)
Lemma get_placement_data_reads_only (st : Store) :
  (get_placement_data st).1 = st.
Proof. reflexivity. Qed.

Lemma get_approved_placement_data_reads_only (q : Query) (st : Store) :
  (get_approved_placement_data q st).1 = st.
Proof.
  unfold get_approved_placement_data, find_approved.
  destruct (JS.falsy (q_collegeName q) || JS.falsy (q_year q));
    [reflexivity|].
  run. destruct (JS.parseInt _); [|reflexivity]. run.
  destruct (length _ =? 0)%nat; reflexivity.
Qed.

Lemma handle_keeps_well_formed (r : PlacementService.Request) (st : Store) :
  PlacementService.well_formed st -> PlacementService.files_present st ->
  PlacementService.well_formed (PlacementService.handle r st).1
  /\ PlacementService.files_present (PlacementService.handle r st).1.
Proof.
  unfold PlacementService.well_formed, PlacementService.files_present.
  intros [Hnd Hall] Hfiles.
  destruct r as [fresh_id req| |[id|]|[id|]|q];
    cbn [PlacementService.handle].
  - (* upload *)
    rewrite upload_run. destruct (u_file req) as [f|]; [|auto]. cbv zeta.
    assert (Hstored : forall d, d ∈ records st ->
              is_Some (<["uploads/" +:+ originalname f:=contents f]> (disk st)
                         !! fileUrl d)).
    { intros d Hd. apply lookup_insert_is_Some.
      destruct (decide ("uploads/" +:+ originalname f = fileUrl d));
        [left; assumption | right; auto]. }
    destruct (JS.falsy (u_collegeName req)) eqn:Hc; [simpl; auto|].
    destruct (JS.falsy (u_year req)); [simpl; auto|]. simpl orb. cbv iota.
    destruct (JS.parseInt _) as [y|]; [|simpl; auto].
    destruct (bool_decide (originalname f = "")); [simpl; auto|].
    destruct (bool_decide (mimetype f = "")); [simpl; auto|]. simpl orb.
    case_bool_decide as Hfree; [simpl; auto|].
    apply falsy_false in Hc as (c & -> & Hc).
    cbn [fst records disk]. split; [split|].
    + rewrite map_app. apply NoDup_app. split; [exact Hnd|]. split.
      * intros x Hx Hx'. apply list_elem_of_singleton in Hx'. subst x.
        exact (Hfree Hx).
      * apply NoDup_singleton.
    + apply Forall_app. split; [exact Hall|]. constructor; [|constructor].
      split; [exact Hc | reflexivity].
    + intros d Hd. apply elem_of_app in Hd as [Hd|Hd]; [auto|].
      apply list_elem_of_singleton in Hd. subst d. cbn [fileUrl].
      rewrite lookup_insert_eq. eauto.
  - (* listPending *)
    rewrite get_placement_data_reads_only. auto.
  - (* approve *)
    rewrite approve_placement_run.
    destruct (Collection.findOne (has_id id) (records st)); [|auto].
    cbn [fst records disk].
    assert (Hfrom : forall d,
              d ∈ Collection.updateOne (has_id id) set_approved (records st) ->
              exists x, x ∈ records st /\ fileUrl d = fileUrl x
                        /\ fileName d = fileName x
                        /\ collegeName d = collegeName x).
    { intros d Hd. apply updateOne_elem in Hd as [Hd|(x & Hx & ->)].
      - exists d. auto.
      - exists x. auto. }
    split; [split|].
    + rewrite updateOne_preserves by reflexivity. exact Hnd.
    + apply Forall_forall. intros d Hd.
      destruct (Hfrom d Hd) as (x & Hx & -> & -> & ->).
      exact (proj1 (Forall_forall _ _) Hall x Hx).
    + intros d Hd. destruct (Hfrom d Hd) as (x & Hx & -> & _). auto.
  - auto.
  - (* reject *)
    rewrite reject_placement_run.
    destruct (Collection.findOne (has_id id) (records st)); [|auto].
    cbn [fst records disk]. split; [split|].
    + apply deleteOne_keeps_NoDup. exact Hnd.
    + apply Forall_forall. intros d Hd. apply deleteOne_subset in Hd.
      exact (proj1 (Forall_forall _ _) Hall d Hd).
    + intros d Hd. apply deleteOne_subset in Hd. auto.
  - auto.
  - (* queryApproved *)
    rewrite get_approved_placement_data_reads_only. auto.
Qed.

Lemma pending_entries_all (disk : gmap string string)
      (docs : list PlacementData) :
  (forall d, d ∈ docs -> is_Some (disk !! fileUrl d)) ->
  map pe_id (pending_entries disk docs) = map _id docs.
Proof.
  induction docs as [|x docs IH]; simpl; [reflexivity|]. intros Hall.
  destruct (Hall x) as [file ->]; [left|]. simpl. f_equal.
  apply IH. intros d Hd. apply Hall. right. exact Hd.
Qed.

(** X19. The records keep their files.  Whatever requests the placement
    routes serve, in whatever order, from a store in which the ids are
    distinct, every record has a college name and the path of the file of
    its name, and every record's file is on the disk, the store after them
    is such a store again: no route removes or renames a file.  So the
    pending list after them skips nothing: it shows every record that is
    not approved. *)
Theorem placement_records_keep_their_files
        (rs : list PlacementService.Request) (st : Store) :
  PlacementService.well_formed st -> PlacementService.files_present st ->
  let after := PlacementService.run rs st in
  PlacementService.well_formed after
  /\ PlacementService.files_present after
  /\ listed_ids (body (get_placement_data after).2)
     = map _id (List.filter (fun d => negb (approved d)) (records after)).
Proof.
  intros Hwf Hfiles after.
  assert (Hinv : PlacementService.well_formed after
                 /\ PlacementService.files_present after).
  { unfold after. clear after. revert st Hwf Hfiles.
    induction rs as [|r rs IH]; intros st Hwf Hfiles; [auto|].
    change (PlacementService.run (r :: rs) st)
      with (PlacementService.run rs (PlacementService.handle r st).1).
    destruct (handle_keeps_well_formed r st Hwf Hfiles) as [Hwf' Hfiles'].
    exact (IH _ Hwf' Hfiles'). }
  destruct Hinv as [Hwf' Hfiles']. split; [exact Hwf'|].
  split; [exact Hfiles'|].
  unfold get_placement_data. run. unfold Collection.find.
  apply pending_entries_all. intros d Hd. apply Hfiles'.
  apply list_elem_of_In, filter_In in Hd as [Hd _].
  apply list_elem_of_In. exact Hd.
Qed.

End PlacementLifecycle.


Lemma upload_same_name_overwrites_witness :
  let second :=
    Placement.upload 2 Scenarios.upload_mit_revised
      (Placement.upload 1 Scenarios.upload_mit Scenarios.no_placements).1 in
  exists d1 d2,
    Placement.records second.1 = [d1; d2]
    /\ Placement._id d1 = 1%nat /\ Placement._id d2 = 2%nat
    /\ Placement.fileUrl d1 = Placement.fileUrl d2
    /\ Placement.disk second.1 !! Placement.fileUrl d1
       = Some (Placement.contents Scenarios.mit_file_revised)
    /\ Placement.mkPendingEntry 1 (Placement.collegeName d1)
         (Placement.year d1)
         (csvParser (Placement.contents Scenarios.mit_file_revised))
       ∈ match body (Placement.get_placement_data second.1).2 with
         | Placement.PendingList entries => entries
         | _ => []
         end.
Proof.
  apply (upload_same_name_overwrites 1 2 Scenarios.upload_mit
           Scenarios.upload_mit_revised Scenarios.no_placements
           Scenarios.mit_file Scenarios.mit_file_revised); reflexivity.
Defined.


Lemma approve_placement_idempotent_witness :
  Placement.approve_placement (Some 1%nat)
    (Placement.approve_placement (Some 1%nat) Examples.with_file).1
  = Placement.approve_placement (Some 1%nat) Examples.with_file.
Proof.
  apply (approve_placement_idempotent Examples.with_file 1). reflexivity.
Defined.

Lemma upload_approve_publishes_witness :
  let uploaded :=
    Placement.upload 1 Scenarios.upload_mit Scenarios.no_placements in
  let published := Placement.approve_placement (Some 1%nat) uploaded.1 in
  1%nat ∈ Placement.listed_ids
            (body (Placement.get_placement_data uploaded.1).2)
  /\ statusCode published.2 = 200
  /\ (1%nat ∉ Placement.listed_ids
                (body (Placement.get_placement_data published.1).2))
  /\ exists y,
       JS.parseInt "2023" = Some y
       /\ let answer :=
            (Placement.get_approved_placement_data Examples.mit_2023
               published.1).2 in
          statusCode answer = 200
          /\ Placement.mkApprovedEntry "MIT" y (csvParser Examples.mit_csv)
             ∈ Placement.listed_entries (body answer).
Proof.
  apply (upload_approve_publishes 1 Scenarios.upload_mit
           Scenarios.no_placements Scenarios.mit_file); reflexivity.
Defined.

Lemma placement_records_keep_their_files_witness :
  let after :=
    PlacementService.run Scenarios.placement_run Scenarios.no_placements in
  PlacementService.well_formed after
  /\ PlacementService.files_present after
  /\ Placement.listed_ids (body (Placement.get_placement_data after).2)
     = map Placement._id
           (List.filter (fun d => negb (Placement.approved d))
                        (Placement.records after)).
Proof.
  apply (placement_records_keep_their_files Scenarios.placement_run
           Scenarios.no_placements).
  - split; constructor.
  - intros d Hd. inversion Hd.
Defined.

(** ** Ledger *)

Section LedgerFurther.
Import Ledger.

(** What [transactions] does. *)
Lemma transactions_run (amb : Ambient) (req : TransactionBody)
      (txs : Transactions) :
  transactions amb req txs
  = let doc := mkTransaction (fresh_id amb) (t_email req) (t_orderId req)
                             (t_amount req) default_status (now amb) in
    if bool_decide (fresh_id amb ∈ map _id txs)
    then (txs, mkResponse 400 (Message (error_message DuplicateKeyError)))
    else ((txs ++ [doc])%list, mkResponse 201 (Document doc)).
Proof.
  unfold transactions, save. run. cbn [_id].
  destruct (bool_decide (fresh_id amb ∈ map _id txs)); reflexivity.
Qed.

(** What [payment_status] does when a transaction has the order id. *)
Lemma payment_status_found (amb : Ambient) (o s : string) (txs : Transactions)
      (d : Transaction) :
  Collection.findOne (has_orderId o) txs = Some d ->
  payment_status amb o s txs
  = (Collection.updateOne (has_orderId o) (set_status s) txs,
     mkResponse 200 (Document (set_status s d))).
Proof.
  intros Hf. unfold payment_status, findOneAndUpdate_upsert. run.
  rewrite Hf. reflexivity.
Qed.

Lemma has_orderId_set_status (o s : string) (d : Transaction) :
  has_orderId o (set_status s d) = has_orderId o d.
Proof. reflexivity. Qed.

(** X20. Two payments recorded under one order id.  [/transactions] does
    not look at the order id: when two transactions are recorded under an
    order id that the ledger did not have, both are kept, each with the
    status "pending", and a later [updateStatus] for the order id sets the
    status of the first of them only; the second stays "pending". *)
Theorem duplicate_order_updates_first_only
        (amb1 amb2 amb3 : Ambient) (b1 b2 : TransactionBody)
        (o s : string) (txs : Transactions) :
  t_orderId b1 = Some o -> t_orderId b2 = Some o ->
  (forall d, d ∈ txs -> orderId d <> Some o) ->
  fresh_id amb1 ∉ map _id txs -> fresh_id amb2 ∉ map _id txs ->
  fresh_id amb1 <> fresh_id amb2 ->
  let doc1 := mkTransaction (fresh_id amb1) (t_email b1) (Some o)
                            (t_amount b1) "pending" (now amb1) in
  let doc2 := mkTransaction (fresh_id amb2) (t_email b2) (Some o)
                            (t_amount b2) "pending" (now amb2) in
  let recorded := (transactions amb2 b2 (transactions amb1 b1 txs).1).1 in
  recorded = (txs ++ [doc1; doc2])%list
  /\ payment_status amb3 o s recorded
     = ((txs ++ [set_status s doc1; doc2])%list,
        mkResponse 200 (Document (set_status s doc1))).
Proof.
  intros Ho1 Ho2 Hnone Hfresh1 Hfresh2 Hne doc1 doc2 recorded.
  assert (Hrec : recorded = (txs ++ [doc1; doc2])%list).
  { unfold recorded. rewrite !transactions_run. cbv zeta.
    rewrite (bool_decide_eq_false_2 _ Hfresh1). cbn [fst].
    rewrite bool_decide_eq_false_2.
    - cbn [fst]. rewrite Ho1, Ho2, <- app_assoc. reflexivity.
    - rewrite map_app. intros Hin. apply elem_of_app in Hin as [Hin|Hin].
      + exact (Hfresh2 Hin).
      + apply list_elem_of_singleton in Hin. cbn [_id] in Hin. congruence. }
  split; [exact Hrec|]. rewrite Hrec.
  assert (Hothers : forall d, d ∈ txs -> has_orderId o d = false).
  { intros d Hd. apply bool_decide_eq_false_2. exact (Hnone d Hd). }
  assert (Hfind : Collection.findOne (has_orderId o) (txs ++ [doc1; doc2])%list
                  = Some doc1).
  { unfold Collection.findOne. clear -Hothers.
    induction txs as [|x txs IH]; simpl.
    - unfold has_orderId at 1. simpl.
      rewrite bool_decide_eq_true_2 by reflexivity. reflexivity.
    - rewrite (Hothers x) by left. apply IH. intros d Hd.
      apply Hothers. right. exact Hd. }
  rewrite (payment_status_found amb3 o s _ doc1 Hfind). f_equal.
  clear -Hothers. induction txs as [|x txs IH]; simpl.
  - unfold has_orderId at 1. simpl.
    rewrite bool_decide_eq_true_2 by reflexivity. reflexivity.
  - rewrite (Hothers x) by left. f_equal. apply IH. intros d Hd.
    apply Hothers. right. exact Hd.
Qed.

Lemma handle_keeps_recorded_data (r : LedgerService.Request)
      (txs : Transactions) :
  exists more,
    map LedgerService.but_status (LedgerService.handle r txs).1
    = (map LedgerService.but_status txs ++ more)%list.
Proof.
  destruct r as [amb req|amb o s]; cbn [LedgerService.handle].
  - rewrite transactions_run. cbv zeta.
    destruct (bool_decide _); cbn [fst].
    + exists []. rewrite app_nil_r. reflexivity.
    + eexists. rewrite map_app. reflexivity.
  - unfold payment_status, findOneAndUpdate_upsert. run.
    destruct (Collection.findOne (has_orderId o) txs).
    + exists []. cbn [fst]. rewrite app_nil_r.
      apply updateOne_preserves. reflexivity.
    + destruct (bool_decide _); cbn [fst].
      * exists []. rewrite app_nil_r. reflexivity.
      * eexists. rewrite map_app. reflexivity.
Qed.

(** X21. What the ledger never does.  Whatever requests the two ledger
    routes serve, in whatever order, no transaction is removed, none
    changes its place, and none changes its id, email, order id, amount or
    timestamp: the transactions of the ledger before, their status apart,
    are the first transactions of the ledger after.  Only the status of a
    recorded transaction can change. *)
Theorem ledger_changes_status_only (rs : list LedgerService.Request)
        (txs : Transactions) :
  exists more,
    map LedgerService.but_status (LedgerService.run rs txs)
    = (map LedgerService.but_status txs ++ more)%list.
Proof.
  revert txs. induction rs as [|r rs IH]; intros txs.
  - exists []. rewrite app_nil_r. reflexivity.
  - change (LedgerService.run (r :: rs) txs)
      with (LedgerService.run rs (LedgerService.handle r txs).1).
    destruct (IH (LedgerService.handle r txs).1) as [more Hmore].
    destruct (handle_keeps_recorded_data r txs) as [more0 Hmore0].
    exists (more0 ++ more)%list.
    rewrite Hmore, Hmore0, <- app_assoc. reflexivity.
Qed.

(** X22. The last status wins.  When [updateStatus] has answered 200 for
    an order id, whether it found a transaction or created one, a second
    [updateStatus] for the same order id creates nothing: it answers 200,
    the ledger keeps its length, and the transaction that the first call
    returned is returned again with the second status, which is the status
    that the ledger now has for the order id. *)
Theorem updateStatus_twice (amb1 amb2 : Ambient) (o s1 s2 : string)
        (txs : Transactions) :
  let first := payment_status amb1 o s1 txs in
  let second := payment_status amb2 o s2 first.1 in
  statusCode first.2 = 200 ->
  exists d,
    body first.2 = Document d
    /\ status d = s1
    /\ second.2 = mkResponse 200 (Document (set_status s2 d))
    /\ length second.1 = length first.1
    /\ Collection.findOne (has_orderId o) second.1 = Some (set_status s2 d).
Proof.
  intros first second Hok.
  assert (Hfirst : exists d, body first.2 = Document d /\ status d = s1
                             /\ Collection.findOne (has_orderId o) first.1
                                = Some d).
  { unfold first in *. clear second.
    unfold payment_status, findOneAndUpdate_upsert in *. revert Hok. run.
    destruct (Collection.findOne (has_orderId o) txs) as [d|] eqn:Hf.
    - intros _. exists (set_status s1 d). cbn [fst snd body].
      split; [reflexivity|]. split; [reflexivity|].
      apply findOne_updateOne; [|exact Hf].
      intros x Hx. rewrite has_orderId_set_status. exact Hx.
    - destruct (bool_decide _); [discriminate|]. intros _.
      eexists. cbn [fst snd body]. split; [reflexivity|].
      split; [reflexivity|].
      apply findOne_app_last; [apply findOne_None; exact Hf|].
      apply bool_decide_eq_true_2. reflexivity. }
  destruct Hfirst as (d & Hbody & Hstatus & Hfind).
  exists d. split; [exact Hbody|]. split; [exact Hstatus|].
  unfold second. rewrite (payment_status_found amb2 o s2 _ d Hfind).
  cbn [fst snd]. split; [reflexivity|]. split.
  - apply updateOne_length.
  - apply findOne_updateOne; [|exact Hfind].
    intros x Hx. rewrite has_orderId_set_status. exact Hx.
Qed.

End LedgerFurther.

Lemma duplicate_order_updates_first_only_witness :
  let recorded :=
    (Ledger.transactions Scenarios.ledger_amb7 Scenarios.second_attempt
       (Ledger.transactions Scenarios.ledger_amb6 Scenarios.first_attempt
          [Examples.paid_order]).1).1 in
  let doc1 :=
    Ledger.mkTransaction 6 (Some "alice@example.com") (Some "order_9")
                         (Some 499) "pending" 1700000100000 in
  let doc2 :=
    Ledger.mkTransaction 7 (Some "alice@example.com") (Some "order_9")
                         (Some 499) "pending" 1700000200000 in
  recorded = [Examples.paid_order; doc1; doc2]
  /\ Ledger.payment_status Examples.ledger_amb "order_9" "paid" recorded
     = ([Examples.paid_order; Ledger.set_status "paid" doc1; doc2],
        mkResponse 200 (Ledger.Document (Ledger.set_status "paid" doc1))).
Proof.
  apply (duplicate_order_updates_first_only Scenarios.ledger_amb6
           Scenarios.ledger_amb7 Examples.ledger_amb Scenarios.first_attempt
           Scenarios.second_attempt "order_9" "paid" [Examples.paid_order]);
    try reflexivity; try compute_done.
  intros d Hd. apply list_elem_of_singleton in Hd. subst d. discriminate.
Defined.

Lemma updateStatus_twice_witness :
  let first :=
    Ledger.payment_status Examples.ledger_amb "order_9" "created"
                          [Examples.paid_order] in
  let second :=
    Ledger.payment_status Scenarios.ledger_amb6 "order_9" "paid" first.1 in
  exists d,
    body first.2 = Ledger.Document d
    /\ Ledger.status d = "created"
    /\ second.2 = mkResponse 200 (Ledger.Document (Ledger.set_status "paid" d))
    /\ length second.1 = length first.1
    /\ Collection.findOne (Ledger.has_orderId "order_9") second.1
       = Some (Ledger.set_status "paid" d).
Proof.
  apply (updateStatus_twice Examples.ledger_amb Scenarios.ledger_amb6
           "order_9" "created" "paid" [Examples.paid_order]).
  reflexivity.
Defined.
